(** * GitHub code analyser: a shallow embedding of [assignment_2/github_analyser.py]

    The program is a Streamlit script.  Every rerun of the script calls
    [init], builds the qualifier list [QUALITY_FILTERS] from the filter
    widgets and, when the "Analyze Code" button was clicked, searches GitHub,
    fetches the raw text of the first three hits and hands each snippet to a
    chat model.

    Conventions of the embedding:
    - a Python [str] is a [string]; one [ascii] stands for one character;
    - a Python [int] is a [Z];
    - a Python [dict] with string keys is a [gmap string _];
    - widget values are the fields of the record [Inputs];
    - the outside world (HTTP servers, the chat model) is a pair of oracles
      indexed by the number of earlier calls, so that two identical requests
      may be answered differently;
    - effects are collected in a trace of [Event]s by the monad [M], which
      also carries Python exceptions;
    - every Streamlit call that shows a text ([st.title], [st.header],
      [st.write], [st.info], ...) is an event; [print] to the server console,
      containers ([st.tabs], [st.columns], [st.expander], [st.spinner]) and
      input widgets, whose values are the [Inputs], leave no event. *)

From Stdlib Require Import ZArith QArith DecimalString Ascii.
From stdpp Require Import gmap strings list.

Set Default Proof Using "Type".

(** ** Python strings *)

Module PyStr.

(** [str(n)] for an [int]. *)
Definition str (n : Z) : string := NilZero.string_of_int (Z.to_int n).

(** [bool(s)]: a string is truthy iff it is not empty. *)
Definition truthy (s : string) : bool :=
  match s with
  | EmptyString => false
  | String _ _ => true
  end.

(** [sep.join(l)]. *)
Fixpoint join (sep : string) (l : list string) : string :=
  match l with
  | [] => ""
  | [x] => x
  | x :: rest => x +:+ sep +:+ join sep rest
  end.

(** [s.startswith(p)]. *)
Fixpoint startswith (p s : string) : bool :=
  match p, s with
  | EmptyString, _ => true
  | String a p', String b s' => if Ascii.eqb a b then startswith p' s' else false
  | String _ _, EmptyString => false
  end.

(** [s[:n]]: the first [n] characters, the whole string when it is shorter. *)
Fixpoint slice_to (n : nat) (s : string) : string :=
  match n, s with
  | O, _ => ""
  | S _, EmptyString => ""
  | S n', String c s' => String c (slice_to n' s')
  end.

(** [s.replace(old, new)] for a non-empty [old]: occurrences are found from
    left to right and do not overlap.  [skip] counts the characters of the
    occurrence just replaced that are still to be dropped. *)
Fixpoint replace_from (skip : nat) (old new s : string) : string :=
  match s with
  | EmptyString => ""
  | String c s' =>
      match skip with
      | S k => replace_from k old new s'
      | O =>
          if startswith old s
          then new +:+ replace_from (String.length old - 1) old new s'
          else String c (replace_from O old new s')
      end
  end.

(** For an empty [old], Python puts [new] before every character and at the
    end. *)
Fixpoint intersperse (new s : string) : string :=
  match s with
  | EmptyString => new
  | String c s' => new +:+ String c (intersperse new s')
  end.

Definition replace (old new s : string) : string :=
  match old with
  | EmptyString => intersperse new s
  | String _ _ => replace_from O old new s
  end.

(** [s.zfill(w)]-like left padding with zeros, as [strftime] does for
    [%Y], [%m] and [%d]. *)
Fixpoint zeros (n : nat) : string :=
  match n with
  | O => ""
  | S k => String "0" (zeros k)
  end.

Definition zero_pad (w : nat) (s : string) : string :=
  zeros (w - String.length s) +:+ s.

(** The newline and the double quote, which a literal cannot hold. *)
Definition nl : string := String (ascii_of_nat 10) "".
Definition dq : string := String (ascii_of_nat 34) "".

(** A triple-quoted literal, given line by line. *)
Definition lines (l : list string) : string := join nl l.

End PyStr.

(** ** Widget values *)

(** [datetime.date]. *)
Record date := Date { year : Z; month : Z; day : Z }.

(** [d.strftime('%Y-%m-%d')], as CPython gives it through the C library:
    [%Y] is the year as a decimal number, without padding, [%m] and [%d] are
    padded to two digits. *)
Definition strftime_Ymd (d : date) : string :=
  PyStr.str (year d) +:+ "-" +:+
  PyStr.zero_pad 2 (PyStr.str (month d)) +:+ "-" +:+
  PyStr.zero_pad 2 (PyStr.str (day d)).

(** What the widgets of the "Code Analysis" tab return on one rerun. *)
Record Inputs := {
  search_query : string;          (* st.text_input *)
  file_extension : string;        (* st.text_input *)
  min_repo_size : Z;              (* st.number_input, min_value=0 *)
  directory_path : string;        (* st.text_input *)
  min_followers : Z;              (* st.number_input, min_value=0 *)
  language_filter : string;       (* st.text_input *)
  use_date_filter : bool;         (* st.checkbox *)
  date_input : date;              (* st.date_input, read only when the box is ticked *)
  analysis_mode : string;         (* st.selectbox *)
  prompt_level : string;          (* st.selectbox *)
  analyze_clicked : bool          (* st.button *)
}.

(** Lines 177-180: [last_pushed] stays [None] unless the box is ticked. *)
Definition last_pushed (i : Inputs) : option date :=
  if use_date_filter i then Some (date_input i) else None.

(** ** Filter builder (lines 183-195) *)

(** [l.append(x)] guarded by [if c:]. *)
Definition append_if (c : bool) (x : string) (l : list string) : list string :=
  if c then l ++ [x] else l.

Definition QUALITY_FILTERS (i : Inputs) : list string :=
  let qf := [] in
  let qf := append_if (PyStr.truthy (file_extension i))
              ("extension:" +:+ file_extension i) qf in
  let qf := append_if (PyStr.truthy (directory_path i))
              ("path:" +:+ directory_path i) qf in
  let qf := append_if (0 <? min_repo_size i)%Z
              ("repo:>=" +:+ PyStr.str (min_repo_size i)) qf in
  let qf := append_if (0 <? min_followers i)%Z
              ("user:>=" +:+ PyStr.str (min_followers i) +:+ " followers") qf in
  let qf := match last_pushed i with
            | Some d => qf ++ ["pushed:>=" +:+ strftime_Ymd d]
            | None => qf
            end in
  let qf := append_if (PyStr.truthy (language_filter i))
              ("language:" +:+ language_filter i) qf in
  qf.

(** Line 212. *)
Definition enhanced_query (i : Inputs) : string :=
  search_query i +:+ " " +:+ PyStr.join " " (QUALITY_FILTERS i).

(** ** Exceptions, events and the outside world *)

(** The exception classes the program distinguishes: the [except] clause of
    [search_github_code] catches [requests.exceptions.RequestException] (which
    covers [ConnectionError], [Timeout], [HTTPError] and [JSONDecodeError]),
    the one of [analyze_with_llm] catches every [Exception].  The string is
    [str(e)]. *)
Inductive Exn :=
| RequestException (msg : string)
| KeyError (key : string)
| ValueError (msg : string)
| OtherException (msg : string).

Definition str_exn (e : Exn) : string :=
  match e with
  | RequestException msg => msg
  | KeyError key => "'" +:+ key +:+ "'"
  | ValueError msg => msg
  | OtherException msg => msg
  end.

Definition is_RequestException (e : Exn) : bool :=
  match e with
  | RequestException _ => true
  | _ => false
  end.

Inductive Outcome (A : Type) :=
| Ret (a : A)
| Raise (e : Exn).
Arguments Ret {A} a.
Arguments Raise {A} e.

(** One entry of a search response: [item['name']],
    [item['repository']['full_name']], [item['html_url']]. *)
Record Item := { name : string; full_name : string; html_url : string }.

(** The parsed JSON body of a search response, as far as the program reads
    it: the keys [total_count] and [items], each of which may be absent. *)
Record SearchResults := {
  total_count : option Z;
  items : option (list Item)
}.

(** A [requests.Response]: [json] is what [response.json()] gives, either the
    message of the decoding error or the parsed body. *)
Record Response := {
  status_code : Z;
  reason : string;
  resp_url : string;
  text : string;
  json : string + SearchResults
}.

(** The arguments of one [requests.get]. *)
Record Request := {
  url : string;
  params : gmap string string;
  headers : gmap string string
}.

(** The [AzureChatOpenAI] client built by [init]. *)
Record LlmClient := {
  azure_endpoint : string;
  api_key : string;
  deployment_name : string;
  model_name : string;
  api_version : string;
  temperature : Q
}.

Inductive HttpOutcome :=
| Responded (r : Response)
| TransportError (msg : string).

Inductive LlmOutcome :=
| Content (s : string)
| LlmRaised (msg : string).

(** The outside world: the answer to the [n]-th GET and to the [n]-th model
    invocation of a run. *)
Record World := {
  http : nat -> Request -> HttpOutcome;
  model : nat -> LlmClient -> string -> LlmOutcome
}.

(** Streamlit elements that show text. *)
Inductive Widget :=
| st_title (s : string)
| st_header (s : string)
| st_info (s : string)
| st_write (s : string)
| st_warning (s : string)
| st_success (s : string)
| st_error (s : string)
| st_subheader (s : string)
| st_code (body language : string).

(** The container an element is drawn in: the page, the expander of a search
    hit, or one of the two tabs inside that expander. *)
Inductive Place :=
| Page
| Expander (label : string)
| GithubTab (label : string)
| AnalysisTab (label : string).

Inductive Event :=
| Ui (place : Place) (w : Widget)
| HttpGet (req : Request)
| LlmInvoke (client : LlmClient) (instruction : string).

(** How many GETs and model invocations a run has issued. *)
Record Clock := { gets : nat; invokes : nat }.

(** ** The monad of the script *)

Definition M (A : Type) : Type :=
  World -> Place -> Clock -> Outcome A * Clock * list Event.

Definition ret {A} (a : A) : M A := fun _ _ c => (Ret a, c, []).

Definition raise {A} (e : Exn) : M A := fun _ _ c => (Raise e, c, []).

Definition bind {A B} (m : M A) (k : A -> M B) : M B :=
  fun W p c =>
    match m W p c with
    | (Ret a, c1, t1) =>
        match k a W p c1 with
        | (o, c2, t2) => (o, c2, t1 ++ t2)
        end
    | (Raise e, c1, t1) => (Raise e, c1, t1)
    end.

Notation "'let*' x ':=' m 'in' k" := (bind m (fun x => k))
  (at level 10, x name, m at level 100, k at level 200).
Notation "m '>>' k" := (bind m (fun _ => k))
  (at level 90, right associativity).

(** [try: m except: h]; [h e = None] when no clause matches [e]. *)
Definition try_except {A} (m : M A) (h : Exn -> option (M A)) : M A :=
  fun W p c =>
    match m W p c with
    | (Ret a, c1, t1) => (Ret a, c1, t1)
    | (Raise e, c1, t1) =>
        match h e with
        | Some k =>
            match k W p c1 with
            | (o, c2, t2) => (o, c2, t1 ++ t2)
            end
        | None => (Raise e, c1, t1)
        end
    end.

(** [with place: m]. *)
Definition within {A} (place : Place) (m : M A) : M A :=
  fun W _ c => m W place c.

(** A Streamlit element in the current container. *)
Definition st (w : Widget) : M unit := fun _ p c => (Ret tt, c, [Ui p w]).

Definition lift {A} (o : Outcome A) : M A := fun _ _ c => (o, c, []).

(** [requests.get(url, params=..., headers=...)]. *)
Definition requests_get (req : Request) : M Response :=
  fun W _ c =>
    let c' := {| gets := S (gets c); invokes := invokes c |} in
    match http W (gets c) req with
    | Responded r => (Ret r, c', [HttpGet req])
    | TransportError msg => (Raise (RequestException msg), c', [HttpGet req])
    end.

(** [client.invoke(instruction).content]. *)
Definition llm_invoke (client : LlmClient) (instruction : string) : M string :=
  fun W _ c =>
    let c' := {| gets := gets c; invokes := S (invokes c) |} in
    match model W (invokes c) client instruction with
    | Content s => (Ret s, c', [LlmInvoke client instruction])
    | LlmRaised msg => (Raise (OtherException msg), c', [LlmInvoke client instruction])
    end.

(** [for x in l: body(x)]. *)
Fixpoint for_each {A} (l : list A) (body : A -> M unit) : M unit :=
  match l with
  | [] => ret tt
  | x :: l' => body x >> for_each l' body
  end.

(** [d[k]]. *)
Definition getitem {V} (d : gmap string V) (k : string) : Outcome V :=
  match d !! k with
  | Some v => Ret v
  | None => Raise (KeyError k)
  end.

(** [d.get(k, dflt)]. *)
Definition dict_get {V} (d : gmap string V) (k : string) (dflt : V) : V :=
  default dflt (d !! k).

(** ** Prompt catalog (lines 34-95) *)

(** Line 35. *)
Definition documentation_basic : string :=
  "Generate comprehensive documentation for this code.".

(** Line 37. *)
Definition documentation_detailed : string :=
  PyStr.lines
    [ "Generate comprehensive documentation for this code. ";
      "                    Include: ";
      "                    1. Purpose and functionality";
      "                    2. Key functions/classes";
      "                    3. Input/output specifications";
      "                    4. Usage examples" ].

(** Line 44. *)
Definition documentation_advanced : string :=
  PyStr.lines
    [ "As an expert developer and technical writer, generate thorough documentation for this code.";
      "                    Include:";
      "                    1. Executive summary of purpose and functionality";
      "                    2. Detailed breakdown of architecture and design patterns";
      "                    3. Complete API reference for all functions/classes/methods";
      "                    4. Input/output specifications with data types and constraints";
      "                    5. Error handling approach and edge cases";
      "                    6. Usage examples with expected outputs";
      "                    7. Dependencies and requirements";
      "                    8. Potential optimization opportunities";
      "                    " ].

(** Line 58. *)
Definition ai_detection_basic : string :=
  "Analyze this code for signs of AI generation.".

(** Line 60. *)
Definition ai_detection_detailed : string :=
  PyStr.lines
    [ "";
      "                    Analyze this code for signs of AI generation. Consider:";
      "                    1. Code structure patterns";
      "                    2. Common AI-generated code characteristics";
      "                    3. Documentation quality";
      "                    4. Style consistency";
      "                    " ].

(** Line 68. *)
Definition ai_detection_advanced : string :=
  PyStr.lines
    [ "";
      "                    As an expert in code analysis and AI-generated content detection, thoroughly examine this code for hallmarks of AI generation.";
      "                    Analyze the following aspects and provide a confidence score (0-100%) for each:";
      "";
      "                    1. Structural fingerprints:";
      "                        - Overly consistent formatting that lacks human variability";
      "                        - Unnaturally regular comment patterns and documentation";
      "                        - Excessive or redundant error handling";
      "                    ";
      "                    2. Stylistic indicators:";
      "                        - Variable naming conventions that are too consistent or follow textbook patterns";
      ("                        - Lack of developer shortcuts or " +:+ PyStr.dq +:+ "quirks" +:+ PyStr.dq +:+ " found in human code");
      "                        - Unnatural comment-to-code ratio";
      "                    ";
      "                    3. Logical patterns:";
      "                        - Solutions that follow common tutorial examples too closely";
      "                        - Implementations that prioritize readability over efficiency";
      "                        - Overly abstracted or generalized solutions when specificity would be more appropriate";
      "                    ";
      "                    4. Technical hallmarks:";
      "                        - Implementation approaches that align with common LLM training data";
      "                        - Inclusion of explanatory comments that a human developer wouldn't typically include";
      "                        - Missing domain-specific optimizations that human experts would implement";
      "                    ";
      "                    Conclude with an overall assessment of whether this code was likely AI-generated,";
      "                    partially AI-assisted, or human-written, with an overall confidence score.";
      "                    " ].

(** ** Session state and [init] (lines 8-95) *)

(** [st.session_state] after [init]. *)
Record Session := {
  llm : LlmClient;
  HEADERS : gmap string string;
  GITHUB_API_URL : string;
  analysis_type : string;
  prompt_complexity : string;
  DOCUMENTATION_PROMPTS : gmap string string;
  AI_DETECTION_PROMPTS : gmap string string
}.

(** The two keys of [st.session_state] that survive from an earlier rerun. *)
Record Persisted := {
  kept_analysis_type : option string;
  kept_prompt_complexity : option string
}.

Definition obind {A B} (o : Outcome A) (k : A -> Outcome B) : Outcome B :=
  match o with
  | Ret a => k a
  | Raise e => Raise e
  end.

(** The constructor [AzureChatOpenAI(...)] of the langchain library keeps
    the settings it is given, or raises (on an empty API key, say). *)
Definition new_client (refuses : LlmClient -> option string)
    (settings : LlmClient) : Outcome LlmClient :=
  match refuses settings with
  | Some msg => Raise (OtherException msg)
  | None => Ret settings
  end.

(** [init()]; [environ] is [os.environ] after [load_dotenv], [refuses] tells
    for which settings the constructor of the client raises, and with what
    message. *)
Definition init (refuses : LlmClient -> option string)
    (environ : gmap string string) (kept : Persisted) : Outcome Session :=
  obind (getitem environ "AZURE_OPENAI_ENDPOINT") (fun endpoint =>
  obind (getitem environ "AZURE_OPENAI_APIKEY") (fun key =>
  obind (getitem environ "AZURE_OPENAI_DEPLOYMENT_NAME") (fun deployment =>
  obind (getitem environ "AZURE_OPENAI_MODEL_NAME") (fun model_nm =>
  obind (getitem environ "AZURE_OPENAI_API_VERSION") (fun version =>
  obind (new_client refuses
           {| azure_endpoint := endpoint;
              api_key := key;
              deployment_name := deployment;
              model_name := model_nm;
              api_version := version;
              temperature := 0.7 |}) (fun client =>
  obind (getitem environ "GITHUB_API_KEY") (fun github_key =>
  obind (getitem environ "GITHUB_API_URL") (fun github_url =>
  Ret {|
    llm := client;
    HEADERS :=
      <["Accept" := "application/vnd.github+json"]>
      (<["Authorization" := "Bearer " +:+ github_key]>
      (<["X-GitHub-Api-Version" := "2022-11-28"]> ∅));
    GITHUB_API_URL := github_url;
    analysis_type := default "Documentation" (kept_analysis_type kept);
    prompt_complexity := default "basic" (kept_prompt_complexity kept);
    DOCUMENTATION_PROMPTS :=
      <["basic" := documentation_basic]>
      (<["detailed" := documentation_detailed]>
      (<["advanced" := documentation_advanced]> ∅));
    AI_DETECTION_PROMPTS :=
      <["basic" := ai_detection_basic]>
      (<["detailed" := ai_detection_detailed]>
      (<["advanced" := ai_detection_advanced]> ∅))
  |})))))))).

(** ** GitHub search client (lines 97-107) *)

(** [response.raise_for_status()] of the requests library: an [HTTPError]
    for a status in 400..599, nothing otherwise. *)
Definition raise_for_status (r : Response) : M unit :=
  if ((400 <=? status_code r) && (status_code r <? 500))%Z then
    raise (RequestException
             (PyStr.str (status_code r) +:+ " Client Error: " +:+ reason r
              +:+ " for url: " +:+ resp_url r))
  else if ((500 <=? status_code r) && (status_code r <? 600))%Z then
    raise (RequestException
             (PyStr.str (status_code r) +:+ " Server Error: " +:+ reason r
              +:+ " for url: " +:+ resp_url r))
  else ret tt.

(** [response.json()]; the decoding error of the requests library is a
    [RequestException]. *)
Definition response_json (r : Response) : M SearchResults :=
  match json r with
  | inr body => ret body
  | inl msg => raise (RequestException msg)
  end.

Definition search_request (ss : Session) (query : string) : Request :=
  {| url := GITHUB_API_URL ss;
     params := {[ "q" := query ]};
     headers := HEADERS ss |}.

Definition search_github_code (ss : Session) (query : string)
  : M (option SearchResults) :=
  try_except
    (let* response := requests_get (search_request ss query) in
     raise_for_status response >>
     let* body := response_json response in
     ret (Some body))
    (fun e =>
       if is_RequestException e
       then Some (st (st_error ("GitHub API Error: " +:+ str_exn e)) >> ret None)
       else None).

(** ** LLM analyzer (lines 109-116) *)

Definition instruction (prompt code_snippet : string) : string :=
  prompt +:+ PyStr.nl +:+ PyStr.nl +:+ code_snippet.

Definition analyze_with_llm (ss : Session) (code_snippet prompt : string)
  : M (option string) :=
  try_except
    (let* content := llm_invoke (llm ss) (instruction prompt code_snippet) in
     ret (Some content))
    (fun e => Some (st (st_error ("OpenAI API Error: " +:+ str_exn e)) >> ret None)).

(** ** The "Prompt Engineering" tab (lines 127-148) *)

(** [l.index(x)]. *)
Fixpoint list_index (l : list string) (x : string) : Outcome nat :=
  match l with
  | [] => Raise (ValueError ("'" +:+ x +:+ "' is not in list"))
  | y :: l' => if String.eqb y x then Ret O
               else obind (list_index l' x) (fun n => Ret (S n))
  end.

(** Line 145. *)
Definition prompt_options (ss : Session) : gmap string string :=
  if String.eqb (analysis_type ss) "Documentation"
  then DOCUMENTATION_PROMPTS ss
  else AI_DETECTION_PROMPTS ss.

(** Line 146. *)
Definition selected_prompt (ss : Session) : Outcome string :=
  getitem (prompt_options ss) (prompt_complexity ss).

(** Lines 132-142: the two radio selections are stored in the session. *)
Definition set_selection (ss : Session)
    (radio_analysis_type radio_prompt_complexity : string) : Session :=
  {| llm := llm ss;
     HEADERS := HEADERS ss;
     GITHUB_API_URL := GITHUB_API_URL ss;
     analysis_type := radio_analysis_type;
     prompt_complexity := radio_prompt_complexity;
     DOCUMENTATION_PROMPTS := DOCUMENTATION_PROMPTS ss;
     AI_DETECTION_PROMPTS := AI_DETECTION_PROMPTS ss |}.

(** Lines 128-148: the tab shows its heading, stores the selections and
    shows the preset they select. *)
Definition prompt_engineering_tab (ss : Session)
    (radio_analysis_type radio_prompt_complexity : string) : M Session :=
  st (st_header "Prompt Engineering Lab") >>
  st (st_write "Experiment with different prompts to optimize code analysis results") >>
  let* _ := lift (list_index ["basic"; "detailed"; "advanced"] (prompt_complexity ss)) in
  let ss' := set_selection ss radio_analysis_type radio_prompt_complexity in
  let* p := lift (selected_prompt ss') in
  st (st_subheader "Selected Prompt:") >>
  st (st_info p) >>
  ret ss'.

(** ** The "Code Analysis" tab (lines 150-259) *)

(** Lines 216-219: the preset for the two select boxes of this tab. *)
Definition select_prompt (ss : Session) (mode level : string) : Outcome string :=
  if String.eqb mode "Documentation Generator" then
    obind (getitem (DOCUMENTATION_PROMPTS ss) "detailed") (fun dflt =>
    Ret (dict_get (DOCUMENTATION_PROMPTS ss) level dflt))
  else
    obind (getitem (AI_DETECTION_PROMPTS ss) "detailed") (fun dflt =>
    Ret (dict_get (AI_DETECTION_PROMPTS ss) level dflt)).

(** Line 231 and 245. *)
Definition item_label (it : Item) : string :=
  "File: " +:+ name it +:+ " (Repo: " +:+ full_name it +:+ ")".

(** Lines 233-235. *)
Definition raw_url (it : Item) : string :=
  PyStr.replace "/blob" ""
    (PyStr.replace "https://github.com" "https://raw.githubusercontent.com"
       (html_url it)).

Definition raw_request (it : Item) : Request :=
  {| url := raw_url it; params := ∅; headers := ∅ |}.

(** Line 240. *)
Definition code_snippet_of (body : string) : string := PyStr.slice_to 2500 body.

(** Lines 231-257: the body of the loop. *)
Definition process_item (ss : Session) (prompt : string) (it : Item) : M unit :=
  within (Expander (item_label it))
    (let* code_response := requests_get (raw_request it) in
     if (status_code code_response =? 200)%Z then
       let code_snippet := code_snippet_of (text code_response) in
       within (GithubTab (item_label it))
         (st (st_subheader (item_label it)) >>
          st (st_code code_snippet "python")) >>
       within (AnalysisTab (item_label it))
         (let* analysis := analyze_with_llm ss code_snippet prompt in
          match analysis with
          | Some s => if PyStr.truthy s
                      then st (st_write s)
                      else st (st_error "Failed to analyze code.")
          | None => st (st_error "Failed to analyze code.")
          end)
     else
       st (st_error "Failed to retrieve code content")).

(** Lines 226-259: what is shown for the value returned by the search. *)
Definition show_results (ss : Session) (prompt : string)
    (search_results : option SearchResults) : M unit :=
  match search_results with
  | Some (Build_SearchResults count (Some its)) =>
      let* n := lift (match count with
                      | Some n => Ret n
                      | None => Raise (KeyError "total_count")
                      end) in
      st (st_success ("Found " +:+ PyStr.str n +:+ " results")) >>
      for_each (take 3 its) (process_item ss prompt)
  | _ => st (st_error "No results found or error in search")
  end.

(** Lines 207-259: the "Analyze Code" button was clicked. *)
Definition on_analyze (ss : Session) (i : Inputs) : M unit :=
  if negb (PyStr.truthy (search_query i)) then
    st (st_warning "Please enter a search query")
  else
    let query := enhanced_query i in
    st (st_write ("Enhanced Query: " +:+ query)) >>
    let* prompt := lift (select_prompt ss (analysis_mode i) (prompt_level i)) in
    let* search_results := search_github_code ss query in
    show_results ss prompt search_results.

(** Line 207: the button and what a click on it runs. *)
Definition code_analysis_tab (ss : Session) (i : Inputs) : M unit :=
  if analyze_clicked i then on_analyze ss i else ret tt.

(** ** [main] (lines 118-259) *)

(** The title (line 120), [init] (line 121), the "Prompt Engineering" tab
    (lines 127-148), then the heading of the "Code Analysis" tab (line 151),
    its input widgets and its button. *)
Definition main (refuses : LlmClient -> option string)
    (environ : gmap string string) (kept : Persisted)
    (radio_analysis_type radio_prompt_complexity : string) (i : Inputs) : M unit :=
  within Page
    (st (st_title "GitHub Code Analyzer SaaS") >>
     let* ss := lift (init refuses environ kept) in
     let* ss' := prompt_engineering_tab ss radio_analysis_type radio_prompt_complexity in
     st (st_header "GitHub Code Search & Analysis") >>
     code_analysis_tab ss' i).

(** A run starts on the page with no request issued. *)
Definition run {A} (m : M A) (W : World) : Outcome A * Clock * list Event :=
  m W Page {| gets := O; invokes := O |}.

(** * Sample data

    Concrete environments, inputs and worlds on which the statements below
    are exercised. *)

Definition sample_environ : gmap string string :=
  <["AZURE_OPENAI_ENDPOINT" := "https://example.openai.azure.com"]>
  (<["AZURE_OPENAI_APIKEY" := "key"]>
  (<["AZURE_OPENAI_DEPLOYMENT_NAME" := "deployment"]>
  (<["AZURE_OPENAI_MODEL_NAME" := "model"]>
  (<["AZURE_OPENAI_API_VERSION" := "2024-02-01"]>
  (<["GITHUB_API_KEY" := "token"]>
  (<["GITHUB_API_URL" := "https://api.github.com/search/code"]> ∅)))))).

(** A constructor that raises on an empty API key and on nothing else. *)
Definition refuses_empty_key (settings : LlmClient) : option string :=
  if String.eqb (api_key settings) "" then Some "Missing credentials" else None.

Definition first_run : Persisted :=
  {| kept_analysis_type := None; kept_prompt_complexity := None |}.

Definition sample_session : Session :=
  {| llm := {| azure_endpoint := "https://example.openai.azure.com";
               api_key := "key";
               deployment_name := "deployment";
               model_name := "model";
               api_version := "2024-02-01";
               temperature := 0.7 |};
     HEADERS :=
       <["Accept" := "application/vnd.github+json"]>
       (<["Authorization" := "Bearer token"]>
       (<["X-GitHub-Api-Version" := "2022-11-28"]> ∅));
     GITHUB_API_URL := "https://api.github.com/search/code";
     analysis_type := "Documentation";
     prompt_complexity := "basic";
     DOCUMENTATION_PROMPTS :=
       <["basic" := documentation_basic]>
       (<["detailed" := documentation_detailed]>
       (<["advanced" := documentation_advanced]> ∅));
     AI_DETECTION_PROMPTS :=
       <["basic" := ai_detection_basic]>
       (<["detailed" := ai_detection_detailed]>
       (<["advanced" := ai_detection_advanced]> ∅)) |}.

(** A query with every filter left at its default. *)
Definition bare_inputs (query : string) : Inputs :=
  {| search_query := query;
     file_extension := "";
     min_repo_size := 0;
     directory_path := "";
     min_followers := 0;
     language_filter := "";
     use_date_filter := false;
     date_input := Date 2020 1 1;
     analysis_mode := "Documentation Generator";
     prompt_level := "basic";
     analyze_clicked := true |}.

(** A query with every filter set. *)
Definition full_inputs : Inputs :=
  {| search_query := "cnn";
     file_extension := ".py";
     min_repo_size := 10;
     directory_path := "/src/";
     min_followers := 5;
     language_filter := "Python";
     use_date_filter := true;
     date_input := Date 2020 1 1;
     analysis_mode := "AI Code Detection";
     prompt_level := "advanced";
     analyze_clicked := true |}.

(** A body of 2501 characters. *)
Definition long_body : string :=
  String "#" (PyStr.zeros 2500).

Definition sample_item (file : string) : Item :=
  {| name := file;
     full_name := "octo/repo";
     html_url := "https://github.com/octo/repo/blob/main/" +:+ file |}.

Definition sample_response (status : Z) (body : string)
    (parsed : string + SearchResults) : Response :=
  {| status_code := status;
     reason := "reason";
     resp_url := "https://example.org/";
     text := body;
     json := parsed |}.

(** No server and no model can be reached. *)
Definition offline_world : World :=
  {| http := λ _ _, TransportError "connection refused";
     model := λ _ _ _, LlmRaised "unreachable" |}.

Definition one_hit : SearchResults :=
  {| total_count := Some 1%Z; items := Some [sample_item "a.py"] |}.

(** Every GET is answered with status 300 and a body that parses. *)
Definition multiple_choices_world : World :=
  {| http := λ _ _, Responded (sample_response 300 "" (inr one_hit));
     model := λ _ _ _, Content "fine" |}.

(** Five hits; the second file is missing, the model fails on the third. *)
Definition five_hits : SearchResults :=
  {| total_count := Some 5%Z;
     items := Some [ sample_item "a.py"; sample_item "b.py"; sample_item "c.py";
                     sample_item "d.py"; sample_item "e.py" ] |}.

Definition sample_respond (n : nat) (req : Request) : Response :=
  match n with
  | 0 => sample_response 200 "" (inr five_hits)
  | 2 => sample_response 404 "404: Not Found" (inl "Expecting value")
  | _ => sample_response 200 "print(1)" (inl "Expecting value")
  end.

Definition sample_world : World :=
  {| http := λ n req, Responded (sample_respond n req);
     model := λ n _ _, match n with
                       | 0 => Content "Prints one."
                       | _ => LlmRaised "rate limit"
                       end |}.

(** The search succeeds, the connection drops at the second fetch. *)
Definition dropping_world : World :=
  {| http := λ n req, match n with
                      | 2 => TransportError "connection reset"
                      | _ => Responded (sample_respond n req)
                      end;
     model := λ _ _ _, Content "Prints one." |}.

(** * Vocabulary of the specification *)

(** The two axes of the prompt catalog. *)
Inductive AnalysisType := Documentation | AIDetection.
Inductive Complexity := basic | detailed | advanced.

(** The option of the "Select Analysis Mode" box for an analysis type. *)
Definition mode_label (a : AnalysisType) : string :=
  match a with
  | Documentation => "Documentation Generator"
  | AIDetection => "AI Code Detection"
  end.

(** The option of the "Analysis Type" radio for an analysis type. *)
Definition radio_label (a : AnalysisType) : string :=
  match a with
  | Documentation => "Documentation"
  | AIDetection => "AI Detection"
  end.

Definition level_key (c : Complexity) : string :=
  match c with
  | basic => "basic"
  | detailed => "detailed"
  | advanced => "advanced"
  end.

(** The preset of each of the six pairs. *)
Definition preset (a : AnalysisType) (c : Complexity) : string :=
  match a, c with
  | Documentation, basic => documentation_basic
  | Documentation, detailed => documentation_detailed
  | Documentation, advanced => documentation_advanced
  | AIDetection, basic => ai_detection_basic
  | AIDetection, detailed => ai_detection_detailed
  | AIDetection, advanced => ai_detection_advanced
  end.

(** The token a filter field contributes: one when the field is set, none
    otherwise. *)
Definition token_if (P : Prop) `{Decision P} (tok : string) : list string :=
  if decide P then [tok] else [].

(** How many filter fields differ from their default. *)
Definition set_fields (i : Inputs) : nat :=
  (if decide (file_extension i ≠ "") then 1 else 0) +
  (if decide (directory_path i ≠ "") then 1 else 0) +
  (if decide (0 < min_repo_size i)%Z then 1 else 0) +
  (if decide (0 < min_followers i)%Z then 1 else 0) +
  (if decide (use_date_filter i = true) then 1 else 0) +
  (if decide (language_filter i ≠ "") then 1 else 0).

(** The status codes for which [raise_for_status] raises. *)
Definition error_status (status : Z) : Prop := (400 ≤ status < 600)%Z.

(** [old] occurs somewhere in [s]. *)
Definition occurs (old s : string) : Prop := ∃ a b, s = a +:+ old +:+ b.

(** Every occurrence of [old] in [s] is a suffix of [s]. *)
Definition occurs_only_at_end (old s : string) : Prop :=
  ∀ a b, s = a +:+ old +:+ b → b = "".

(** Every character of [s] is a decimal digit. *)
Fixpoint digits (s : string) : bool :=
  match s with
  | EmptyString => true
  | String ch s' =>
      (48 <=? nat_of_ascii ch)%nat && (nat_of_ascii ch <=? 57)%nat && digits s'
  end.

(** [f] holds of the [count] integers from [start] on. *)
Fixpoint all_from (f : Z → bool) (start : Z) (count : nat) : bool :=
  match count with
  | O => true
  | S count' => f start && all_from f (start + 1) count'
  end.

(** [n], padded to [w] characters, is [w] digits. *)
Definition padded_digits (w : nat) (n : Z) : bool :=
  let s := PyStr.zero_pad w (PyStr.str n) in
  digits s && (String.length s =? w)%nat.

(** [n], written as it is, is [w] digits. *)
Definition plain_digits (w : nat) (n : Z) : bool :=
  digits (PyStr.str n) && (String.length (PyStr.str n) =? w)%nat.

(** A date as [datetime.date] accepts it. *)
Definition valid_date (d : date) : Prop :=
  (1 ≤ year d ≤ 9999)%Z ∧ (1 ≤ month d ≤ 12)%Z ∧ (1 ≤ day d ≤ 31)%Z.

(** The requests among the events of a run. *)
Definition is_request (e : Event) : bool :=
  match e with
  | Ui _ _ => false
  | HttpGet _ => true
  | LlmInvoke _ _ => true
  end.

Definition network (t : list Event) : list Event := List.filter is_request t.

(** The requests of a batch follow the items in order: each item is fetched
    once and, at most, analysed once right after its fetch; the batch may
    stop early. *)
Inductive fetch_then_analyze (client : LlmClient) (prompt : string)
  : list Item → list Event → Prop :=
| fta_stop its :
    fetch_then_analyze client prompt its []
| fta_fetch it its t :
    fetch_then_analyze client prompt its t →
    fetch_then_analyze client prompt (it :: its) (HttpGet (raw_request it) :: t)
| fta_fetch_analyze it its body t :
    fetch_then_analyze client prompt its t →
    fetch_then_analyze client prompt (it :: its)
      (HttpGet (raw_request it)
       :: LlmInvoke client (instruction prompt (code_snippet_of body)) :: t).

(** What the analysis tab of a hit shows for the answer of the model. *)
Definition analysis_shown (label : string) (a : LlmOutcome) : list Event :=
  match a with
  | Content answer =>
      if decide (answer ≠ "")
      then [Ui (AnalysisTab label) (st_write answer)]
      else [Ui (AnalysisTab label) (st_error "Failed to analyze code.")]
  | LlmRaised msg =>
      [ Ui (AnalysisTab label) (st_error ("OpenAI API Error: " +:+ msg));
        Ui (AnalysisTab label) (st_error "Failed to analyze code.") ]
  end.

(** The events of one hit whose fetch was answered by [r] and whose analysis,
    if any, was answered by [a]. *)
Definition panel (ss : Session) (prompt : string) (it : Item) (r : Response)
    (a : LlmOutcome) : list Event :=
  if decide (status_code r = 200%Z) then
    [ HttpGet (raw_request it);
      Ui (GithubTab (item_label it)) (st_subheader (item_label it));
      Ui (GithubTab (item_label it)) (st_code (code_snippet_of (text r)) "python");
      LlmInvoke (llm ss) (instruction prompt (code_snippet_of (text r))) ]
    ++ analysis_shown (item_label it) a
  else
    [ HttpGet (raw_request it);
      Ui (Expander (item_label it)) (st_error "Failed to retrieve code content") ].

(** ** Vocabulary for the rest of the script *)

(** The environment variables [init] reads, in the order it reads them. *)
Definition required_environ : list string :=
  [ "AZURE_OPENAI_ENDPOINT"; "AZURE_OPENAI_APIKEY"; "AZURE_OPENAI_DEPLOYMENT_NAME";
    "AZURE_OPENAI_MODEL_NAME"; "AZURE_OPENAI_API_VERSION"; "GITHUB_API_KEY";
    "GITHUB_API_URL" ].

(** The first of them that the environment does not define. *)
Definition first_missing (environ : gmap string string) : option string :=
  List.find (λ k, bool_decide (environ !! k = None)) required_environ.

(** The message of the error the search client reports for an answer, if it
    reports one. *)
Definition search_error (a : HttpOutcome) : option string :=
  match a with
  | TransportError msg => Some msg
  | Responded r =>
      if decide (400 ≤ status_code r < 500)%Z then
        Some (PyStr.str (status_code r) +:+ " Client Error: " +:+ reason r
              +:+ " for url: " +:+ resp_url r)
      else if decide (500 ≤ status_code r < 600)%Z then
        Some (PyStr.str (status_code r) +:+ " Server Error: " +:+ reason r
              +:+ " for url: " +:+ resp_url r)
      else
        match json r with
        | inl msg => Some msg
        | inr _ => None
        end
  end.

(** The GETs and the model instructions among the events of a run. *)
Definition gets_of (t : list Event) : list Request :=
  flat_map (λ e, match e with HttpGet req => [req] | _ => [] end) t.

Definition invokes_of (t : list Event) : list (LlmClient * string) :=
  flat_map (λ e, match e with LlmInvoke cl ins => [(cl, ins)] | _ => [] end) t.

(** Decision procedures for [occurs] and [occurs_only_at_end]. *)
Fixpoint occursb (old s : string) : bool :=
  PyStr.startswith old s ||
  match s with
  | EmptyString => false
  | String _ s' => occursb old s'
  end.

Fixpoint only_at_endb (old s : string) : bool :=
  match s with
  | EmptyString => true
  | String _ s' =>
      (negb (PyStr.startswith old s) || (String.length s =? String.length old)%nat)
      && only_at_endb old s'
  end.

(** The levels of the "Prompt Complexity" radio. *)
Definition complexity_levels : list string := ["basic"; "detailed"; "advanced"].

(** ** Vocabulary for the loop over the hits *)

(** The run of the loop over the hits [l] from the clock [c]: each hit is
    fetched; a fetch that is answered leaves the panel of the hit and the
    loop goes on, a fetch that raises ends the loop with that exception. *)
Inductive hits_processed (ss : Session) (prompt : string) (W : World)
  : Clock → list Item → Outcome unit → Clock → list Event → Prop :=
| hp_end c :
    hits_processed ss prompt W c [] (Ret tt) c []
| hp_hit c it its r o c' t :
    http W (gets c) (raw_request it) = Responded r →
    hits_processed ss prompt W
      {| gets := S (gets c);
         invokes := if decide (status_code r = 200%Z)
                    then S (invokes c) else invokes c |}
      its o c' t →
    hits_processed ss prompt W c (it :: its) o c'
      (panel ss prompt it r
         (model W (invokes c) (llm ss)
            (instruction prompt (code_snippet_of (text r)))) ++ t)
| hp_raise c it its msg :
    http W (gets c) (raw_request it) = TransportError msg →
    hits_processed ss prompt W c (it :: its) (Raise (RequestException msg))
      {| gets := S (gets c); invokes := invokes c |}
      [HttpGet (raw_request it)].

(** The page tells the user that nothing was found. *)
Definition no_results_state (t : list Event) : Prop :=
  ∃ place,
    Ui place (st_error "No results found or error in search") ∈ t
    ∨ Ui place (st_success "Found 0 results") ∈ t.

(** A search answer that counts five results and lists none. *)
Definition count_without_hits : SearchResults :=
  {| total_count := Some 5%Z; items := Some [] |}.

Definition count_without_hits_world : World :=
  {| http := λ _ _, Responded (sample_response 200 "" (inr count_without_hits));
     model := λ _ _ _, Content "unused" |}.

(** * Properties *)

(** ** Strings *)

Section StringFacts.

Lemma startswith_app (p s : string) : PyStr.startswith p (p +:+ s) = true.
Proof.
  induction p as [|a p IH]; simpl; [done|].
  by rewrite Ascii.eqb_refl.
Qed.

Lemma truthy_true (s : string) : PyStr.truthy s = true ↔ s ≠ "".
Proof. destruct s; simpl; split; congruence. Qed.

Lemma truthy_false (s : string) : PyStr.truthy s = false ↔ s = "".
Proof. destruct s; simpl; split; congruence. Qed.

Lemma slice_to_length (n : nat) (s : string) :
  String.length (PyStr.slice_to n s) = Nat.min n (String.length s).
Proof.
  revert s; induction n as [|n IH]; intros [|c s]; simpl; auto.
Qed.

Lemma slice_to_all (n : nat) (s : string) :
  String.length s ≤ n → PyStr.slice_to n s = s.
Proof.
  revert s; induction n as [|n IH]; intros [|c s]; simpl; intros Hlen;
    try done; try lia.
  f_equal. apply IH. lia.
Qed.

Lemma slice_to_prefix (n : nat) (s : string) :
  ∃ rest, s = PyStr.slice_to n s +:+ rest.
Proof.
  revert s; induction n as [|n IH]; intros s.
  - exists s. by destruct s.
  - destruct s as [|c s]; [by exists ""|].
    destruct (IH s) as [rest Hrest]. exists rest.
    change (String c s = String c (PyStr.slice_to n s +:+ rest)).
    congruence.
Qed.

End StringFacts.

(** ** Filter builder *)

Lemma append_if_token (c : bool) (P : Prop) `{Decision P} tok l :
  (c = true ↔ P) → append_if c tok l = l ++ token_if P tok.
Proof.
  intros Hc. unfold append_if, token_if.
  destruct c; case_decide; try done.
  - exfalso. tauto.
  - exfalso. apply Hc in H0. done.
  - by rewrite app_nil_r.
Qed.

Lemma elem_of_token_if (P : Prop) `{Decision P} tok t :
  t ∈ token_if P tok ↔ P ∧ t = tok.
Proof.
  unfold token_if. case_decide.
  - rewrite list_elem_of_singleton. tauto.
  - rewrite elem_of_nil. tauto.
Qed.

Lemma length_token_if (P : Prop) `{Decision P} tok :
  length (token_if P tok) = if decide P then 1 else 0.
Proof. unfold token_if. by case_decide. Qed.

Lemma QUALITY_FILTERS_closed_form (i : Inputs) :
  QUALITY_FILTERS i =
    token_if (file_extension i ≠ "") ("extension:" +:+ file_extension i) ++
    token_if (directory_path i ≠ "") ("path:" +:+ directory_path i) ++
    token_if (0 < min_repo_size i)%Z ("repo:>=" +:+ PyStr.str (min_repo_size i)) ++
    token_if (0 < min_followers i)%Z
      ("user:>=" +:+ PyStr.str (min_followers i) +:+ " followers") ++
    token_if (use_date_filter i = true) ("pushed:>=" +:+ strftime_Ymd (date_input i)) ++
    token_if (language_filter i ≠ "") ("language:" +:+ language_filter i).
Proof.
  unfold QUALITY_FILTERS.
  rewrite (append_if_token (PyStr.truthy (file_extension i)) (file_extension i ≠ ""))
    by apply truthy_true.
  rewrite (append_if_token (PyStr.truthy (directory_path i)) (directory_path i ≠ ""))
    by apply truthy_true.
  rewrite (append_if_token (0 <? min_repo_size i)%Z (0 < min_repo_size i)%Z)
    by apply Z.ltb_lt.
  rewrite (append_if_token (0 <? min_followers i)%Z (0 < min_followers i)%Z)
    by apply Z.ltb_lt.
  rewrite (append_if_token (PyStr.truthy (language_filter i)) (language_filter i ≠ ""))
    by apply truthy_true.
  assert (Hdate : ∀ l, match last_pushed i with
                       | Some d => l ++ ["pushed:>=" +:+ strftime_Ymd d]
                       | None => l
                       end
                       = l ++ token_if (use_date_filter i = true)
                                ("pushed:>=" +:+ strftime_Ymd (date_input i))).
  { intros l. unfold last_pushed, token_if.
    destruct (use_date_filter i); case_decide; try done.
    by rewrite app_nil_r. }
  rewrite Hdate. simpl. by rewrite <- !app_assoc.
Qed.

(** C1. For every combination of the six filter inputs the filter builder
    yields one token per field that is set (non-empty text, number above 0,
    date box ticked) and none for a field left at its default, in the order
    extension, path, repo size, followers, pushed date, language, each of the
    form [extension:<ext>], [path:<dir>], [repo:>=<n>],
    [user:>=<n> followers], [pushed:>=<YYYY-MM-DD>], [language:<lang>]; a
    token beginning [repo:>=] (resp. [user:>=]) is present iff the minimum
    repository size (resp. follower count) is strictly positive. *)
Theorem QUALITY_FILTERS_tokens (i : Inputs) :
  QUALITY_FILTERS i =
    token_if (file_extension i ≠ "") ("extension:" +:+ file_extension i) ++
    token_if (directory_path i ≠ "") ("path:" +:+ directory_path i) ++
    token_if (0 < min_repo_size i)%Z ("repo:>=" +:+ PyStr.str (min_repo_size i)) ++
    token_if (0 < min_followers i)%Z
      ("user:>=" +:+ PyStr.str (min_followers i) +:+ " followers") ++
    token_if (use_date_filter i = true) ("pushed:>=" +:+ strftime_Ymd (date_input i)) ++
    token_if (language_filter i ≠ "") ("language:" +:+ language_filter i)
  ∧ length (QUALITY_FILTERS i) = set_fields i
  ∧ ((∃ t, t ∈ QUALITY_FILTERS i ∧ PyStr.startswith "repo:>=" t = true)
     ↔ (0 < min_repo_size i)%Z)
  ∧ ((∃ t, t ∈ QUALITY_FILTERS i ∧ PyStr.startswith "user:>=" t = true)
     ↔ (0 < min_followers i)%Z).
Proof.
  split; [apply QUALITY_FILTERS_closed_form|].
  rewrite QUALITY_FILTERS_closed_form.
  split; [|split].
  - rewrite !length_app, !length_token_if. unfold set_fields. lia.
  - split.
    + intros (t & Hin & Hpre).
      rewrite !elem_of_app, !elem_of_token_if in Hin.
      destruct Hin as [[_ ->]|[[_ ->]|[[Hpos _]|[[_ ->]|[[_ ->]|[_ ->]]]]]];
        simpl in Hpre; done.
    + intros Hpos. eexists. split.
      * rewrite !elem_of_app, !elem_of_token_if.
        right; right; left. split; [exact Hpos|reflexivity].
      * apply (startswith_app "repo:>=").
  - split.
    + intros (t & Hin & Hpre).
      rewrite !elem_of_app, !elem_of_token_if in Hin.
      destruct Hin as [[_ ->]|[[_ ->]|[[_ ->]|[[Hpos _]|[[_ ->]|[_ ->]]]]]];
        simpl in Hpre; done.
    + intros Hpos. eexists. split.
      * rewrite !elem_of_app, !elem_of_token_if.
        right; right; right; left. split; [exact Hpos|reflexivity].
      * apply (startswith_app "user:>=").
Qed.

(** The date of the [pushed:>=] token has the form YYYY-MM-DD. *)
Lemma all_from_spec (f : Z → bool) (count : nat) (start : Z) :
  all_from f start count = true →
  ∀ n, (start ≤ n < start + Z.of_nat count)%Z → f n = true.
Proof.
  revert start. induction count as [|count IH]; intros start Hall n Hn; [lia|].
  simpl in Hall. apply andb_true_iff in Hall as [Hhere Hrest].
  destruct (decide (n = start)) as [->|Hne]; [done|].
  apply (IH (start + 1)%Z Hrest). lia.
Qed.

Lemma zero_pad_digits (w : nat) (bound : Z) :
  all_from (padded_digits w) 0 (Z.to_nat bound) = true →
  ∀ n, (0 ≤ n < bound)%Z →
       digits (PyStr.zero_pad w (PyStr.str n)) = true
       ∧ String.length (PyStr.zero_pad w (PyStr.str n)) = w.
Proof.
  intros Hall n Hn.
  pose proof (all_from_spec _ _ _ Hall n ltac:(lia)) as Hcheck.
  apply andb_true_iff in Hcheck as [Hdigits Hlen].
  split; [done|]. by apply Nat.eqb_eq.
Qed.

Lemma four_digit_years : all_from (plain_digits 4) 1000 (Z.to_nat 9000) = true.
Proof. vm_cast_no_check (eq_refl true). Qed.

Lemma two_digit_months_and_days :
  all_from (padded_digits 2) 0 (Z.to_nat 100) = true.
Proof. vm_cast_no_check (eq_refl true). Qed.

(** For every date with a year of four digits, the text after [pushed:>=]
    is four digits, a dash, two digits, a dash and two digits. *)
Lemma strftime_Ymd_shape (d : date) :
  valid_date d →
  (1000 ≤ year d)%Z →
  ∃ yyyy mm dd,
    strftime_Ymd d = yyyy +:+ "-" +:+ mm +:+ "-" +:+ dd
    ∧ String.length yyyy = 4 ∧ digits yyyy = true
    ∧ String.length mm = 2 ∧ digits mm = true
    ∧ String.length dd = 2 ∧ digits dd = true.
Proof.
  intros (Hy & Hm & Hd) Hyear.
  pose proof (all_from_spec _ _ _ four_digit_years (year d) ltac:(lia)) as Hcheck.
  apply andb_true_iff in Hcheck as [? Hlen]. apply Nat.eqb_eq in Hlen.
  destruct (zero_pad_digits 2 100 two_digit_months_and_days (month d))
    as [? ?]; [lia|].
  destruct (zero_pad_digits 2 100 two_digit_months_and_days (day d))
    as [? ?]; [lia|].
  eexists _, _, _. split; [reflexivity|]. done.
Qed.

(** ** Snippet truncation *)

(** C4. The snippet is the first 2500 characters of the fetched body: a
    longer body gives a snippet of length exactly 2500, a body of at most
    2500 characters is kept whole; in both cases the snippet is a prefix of
    the body, cut without regard to lines. *)
Theorem code_snippet_truncation (body : string) :
  (2500 < String.length body → String.length (code_snippet_of body) = 2500)
  ∧ (String.length body ≤ 2500 → code_snippet_of body = body)
  ∧ (∃ rest, body = code_snippet_of body +:+ rest).
Proof.
  unfold code_snippet_of. split; [|split].
  - intros Hlong. rewrite slice_to_length. apply Nat.min_l. lia.
  - apply slice_to_all.
  - apply slice_to_prefix.
Qed.

Lemma code_snippet_truncation_witness :
  String.length (code_snippet_of long_body) = 2500
  ∧ code_snippet_of "print(1)" = "print(1)".
Proof.
  split.
  - apply (code_snippet_truncation long_body). vm_compute. lia.
  - apply (code_snippet_truncation "print(1)"). vm_compute. lia.
Defined.

(** ** The "Analyze Code" button *)

(** C10. With an empty search query a click on "Analyze Code" shows the
    warning and stops there, whatever the filters hold: the only event is the
    warning, so no enhanced query is written and no search, fetch or model
    request leaves the program (the clock does not move). *)
Theorem empty_query_only_warns (ss : Session) (i : Inputs) (W : World)
    (p : Place) (c : Clock) :
  search_query i = "" →
  analyze_clicked i = true →
  code_analysis_tab ss i W p c
  = (Ret tt, c, [Ui p (st_warning "Please enter a search query")]).
Proof.
  intros Hq Hclick. unfold code_analysis_tab, on_analyze.
  by rewrite Hclick, Hq.
Qed.

Lemma empty_query_only_warns_witness :
  run (code_analysis_tab sample_session
         {| search_query := "";
            file_extension := ".py";
            min_repo_size := 10;
            directory_path := "/src/";
            min_followers := 5;
            language_filter := "Python";
            use_date_filter := true;
            date_input := Date 2020 1 1;
            analysis_mode := "AI Code Detection";
            prompt_level := "advanced";
            analyze_clicked := true |}) offline_world
  = (Ret tt, {| gets := 0; invokes := 0 |},
     [Ui Page (st_warning "Please enter a search query")]).
Proof.
  unfold run.
  apply empty_query_only_warns; reflexivity.
Defined.

(** The handler up to the search call, for a query that is not empty. *)
Lemma on_analyze_nonempty (ss : Session) (i : Inputs) (W : World) (p : Place)
    (c : Clock) (prompt : string) :
  search_query i ≠ "" →
  select_prompt ss (analysis_mode i) (prompt_level i) = Ret prompt →
  on_analyze ss i W p c
  = let '(o, c1, t1) := search_github_code ss (enhanced_query i) W p c in
    match o with
    | Ret found =>
        let '(o2, c2, t2) := show_results ss prompt found W p c1 in
        (o2, c2, Ui p (st_write ("Enhanced Query: " +:+ enhanced_query i)) :: t1 ++ t2)
    | Raise e =>
        (Raise e, c1, Ui p (st_write ("Enhanced Query: " +:+ enhanced_query i)) :: t1)
    end.
Proof.
  intros Hq Hprompt. unfold on_analyze.
  apply truthy_true in Hq. rewrite Hq. simpl.
  unfold bind at 1. simpl.
  unfold bind at 1. unfold lift at 1. rewrite Hprompt.
  unfold bind at 1.
  destruct (search_github_code ss (enhanced_query i) W p c) as [[[found|e] c1] t1];
    simpl; [|done].
  by destruct (show_results ss prompt found W p c1) as [[o2 c2] t2].
Qed.

(** The search client always starts with its one GET. *)
Lemma search_github_code_first_event (ss : Session) (query : string)
    (W : World) (p : Place) (c : Clock) :
  ∃ o t, search_github_code ss query W p c
         = (o, {| gets := S (gets c); invokes := invokes c |},
            HttpGet (search_request ss query) :: t)
         ∧ ∀ req, HttpGet req ∉ t.
Proof.
  unfold search_github_code, try_except, bind, requests_get.
  destruct (http W (gets c) (search_request ss query)) as [r|msg]; simpl.
  - unfold raise_for_status.
    destruct ((400 <=? status_code r)%Z && (status_code r <? 500)%Z); simpl.
    { eexists _, _. split; [reflexivity|]. intros req Hin.
      apply list_elem_of_singleton in Hin. done. }
    destruct ((500 <=? status_code r)%Z && (status_code r <? 600)%Z); simpl.
    { eexists _, _. split; [reflexivity|]. intros req Hin.
      apply list_elem_of_singleton in Hin. done. }
    unfold response_json. destruct (json r) as [msg|body]; simpl.
    + eexists _, _. split; [reflexivity|]. intros req Hin.
      apply list_elem_of_singleton in Hin. done.
    + eexists _, _. split; [reflexivity|]. intros req Hin.
      by apply elem_of_nil in Hin.
  - eexists _, _. split; [reflexivity|]. intros req Hin.
    apply list_elem_of_singleton in Hin. done.
Qed.

(** C2 (amended). For a non-empty query, the string sent to the search
    client as [q] is the query, one space, and the qualifier tokens joined by
    single spaces in their fixed order; the search GET is the first request
    of the run.  With no filter set, the string is the query followed by one
    space. *)
Theorem enhanced_query_submitted (ss : Session) (i : Inputs) (W : World)
    (p : Place) (c : Clock) (prompt : string) :
  search_query i ≠ "" →
  select_prompt ss (analysis_mode i) (prompt_level i) = Ret prompt →
  let q := search_query i +:+ " " +:+ PyStr.join " " (QUALITY_FILTERS i) in
  (∃ rest,
     (on_analyze ss i W p c).2
     = Ui p (st_write ("Enhanced Query: " +:+ q))
       :: HttpGet {| url := GITHUB_API_URL ss;
                     params := {[ "q" := q ]};
                     headers := HEADERS ss |}
       :: rest)
  ∧ (QUALITY_FILTERS i = [] → q = search_query i +:+ " ").
Proof.
  intros Hq Hprompt q. split.
  - rewrite (on_analyze_nonempty ss i W p c prompt Hq Hprompt).
    destruct (search_github_code_first_event ss (enhanced_query i) W p c)
      as (o & t & -> & _).
    destruct o as [found|e]; simpl.
    + destruct (show_results ss prompt found W p _) as [[o2 c2] t2]. simpl.
      by eexists.
    + by eexists.
  - intros Hnil. unfold q. rewrite Hnil. reflexivity.
Qed.

Lemma enhanced_query_submitted_witness :
  (∃ rest,
     (on_analyze sample_session full_inputs offline_world Page
        {| gets := 0; invokes := 0 |}).2
     = Ui Page (st_write ("Enhanced Query: " +:+
         "cnn extension:.py path:/src/ repo:>=10 user:>=5 followers pushed:>=2020-01-01 language:Python"))
       :: HttpGet {| url := "https://api.github.com/search/code";
                     params := {[ "q" :=
         "cnn extension:.py path:/src/ repo:>=10 user:>=5 followers pushed:>=2020-01-01 language:Python" ]};
                     headers := HEADERS sample_session |}
       :: rest)
  ∧ search_query (bare_inputs "cnn") +:+ " "
      +:+ PyStr.join " " (QUALITY_FILTERS (bare_inputs "cnn"))
    = "cnn" +:+ " ".
Proof.
  split.
  - apply (enhanced_query_submitted sample_session full_inputs offline_world Page
             {| gets := 0; invokes := 0 |} ai_detection_advanced).
    + vm_compute. congruence.
    + vm_compute. reflexivity.
  - refine (proj2 (enhanced_query_submitted sample_session (bare_inputs "cnn")
                     offline_world Page {| gets := 0; invokes := 0 |}
                     documentation_basic _ _) _).
    + vm_compute. congruence.
    + vm_compute. reflexivity.
    + reflexivity.
Defined.

(** C2, as stated, fails: with no filter set the string handed to the search
    client is not the query itself, it carries a trailing space. *)
Lemma bare_query_gets_trailing_space :
  QUALITY_FILTERS (bare_inputs "cnn") = []
  ∧ search_query (bare_inputs "cnn") = "cnn"
  ∧ run (on_analyze sample_session (bare_inputs "cnn")) offline_world
    = (Ret tt, {| gets := 1; invokes := 0 |},
       [ Ui Page (st_write "Enhanced Query: cnn ");
         HttpGet {| url := "https://api.github.com/search/code";
                    params := {[ "q" := "cnn " ]};
                    headers := HEADERS sample_session |};
         Ui Page (st_error "GitHub API Error: connection refused");
         Ui Page (st_error "No results found or error in search") ])
  ∧ ({[ "q" := "cnn " ]} : gmap string string) ≠ {[ "q" := "cnn" ]}.
Proof.
  split; [reflexivity|]. split; [reflexivity|]. split.
  - vm_compute. reflexivity.
  - intros Heq.
    assert (H : ({[ "q" := "cnn " ]} : gmap string string) !! "q" = Some "cnn")
      by (rewrite Heq; apply lookup_singleton_eq).
    rewrite lookup_singleton_eq in H. discriminate H.
Qed.

(** ** Session set-up *)

Lemma init_session (refuses : LlmClient → option string)
    (environ : gmap string string) (kept : Persisted) (ss : Session) :
  init refuses environ kept = Ret ss →
  ∃ github_key,
    environ !! "GITHUB_API_KEY" = Some github_key
    ∧ environ !! "GITHUB_API_URL" = Some (GITHUB_API_URL ss)
    ∧ temperature (llm ss) = 0.7%Q
    ∧ HEADERS ss =
        <["Accept" := "application/vnd.github+json"]>
        (<["Authorization" := "Bearer " +:+ github_key]>
        (<["X-GitHub-Api-Version" := "2022-11-28"]> ∅))
    ∧ DOCUMENTATION_PROMPTS ss =
        <["basic" := documentation_basic]>
        (<["detailed" := documentation_detailed]>
        (<["advanced" := documentation_advanced]> ∅))
    ∧ AI_DETECTION_PROMPTS ss =
        <["basic" := ai_detection_basic]>
        (<["detailed" := ai_detection_detailed]>
        (<["advanced" := ai_detection_advanced]> ∅)).
Proof.
  unfold init, getitem, obind, new_client.
  repeat match goal with
         | |- context [environ !! ?k] =>
             let E := fresh "E" in
             destruct (environ !! k) eqn:E;
             [|try destruct (refuses _); discriminate]
         end.
  destruct (refuses _); [discriminate|].
  intros [= <-]. simpl. eauto 10.
Qed.

Lemma init_sample : init refuses_empty_key sample_environ first_run = Ret sample_session.
Proof. vm_compute. reflexivity. Qed.

(** ** Prompt catalog *)

Lemma preset_nonempty (a : AnalysisType) (c : Complexity) : preset a c ≠ "".
Proof. destruct a, c; vm_compute; discriminate. Qed.

Lemma level_key_cases (level : string) :
  level ∉ ["basic"; "detailed"; "advanced"] →
  level ≠ "basic" ∧ level ≠ "detailed" ∧ level ≠ "advanced".
Proof.
  intros Hnot. repeat split; intros ->; apply Hnot; set_solver.
Qed.

(** C5. After [init], the lookup of the "Code Analysis" tab returns for each
    of the six pairs of an analysis type and a complexity level the preset of
    that pair, which is never empty, and so does the lookup of the "Prompt
    Engineering" tab; the two basic presets are the sentences quoted in the
    specification; a complexity key other than the three levels makes the
    lookup of the "Code Analysis" tab fall back to the "detailed" preset of
    the selected analysis type. *)
Theorem prompt_catalog_lookup (refuses : LlmClient → option string)
    (environ : gmap string string) (kept : Persisted)
    (ss : Session) :
  init refuses environ kept = Ret ss →
  (∀ a c, select_prompt ss (mode_label a) (level_key c) = Ret (preset a c)
          ∧ selected_prompt (set_selection ss (radio_label a) (level_key c))
            = Ret (preset a c)
          ∧ preset a c ≠ "")
  ∧ preset Documentation basic = "Generate comprehensive documentation for this code."
  ∧ preset AIDetection basic = "Analyze this code for signs of AI generation."
  ∧ (∀ a level, level ∉ ["basic"; "detailed"; "advanced"] →
       select_prompt ss (mode_label a) level = Ret (preset a detailed)).
Proof.
  intros Hinit.
  destruct (init_session _ _ _ _ Hinit) as (_ & _ & _ & _ & _ & Hdoc & Hai).
  split; [|split; [reflexivity|split; [reflexivity|]]].
  - intros a c. split; [|split; [|apply preset_nonempty]].
    + unfold select_prompt, getitem, dict_get, obind.
      destruct a, c; simpl; rewrite ?Hdoc, ?Hai; reflexivity.
    + unfold selected_prompt, prompt_options, set_selection, getitem.
      destruct a, c; simpl; rewrite ?Hdoc, ?Hai; reflexivity.
  - intros a level Hlevel.
    apply level_key_cases in Hlevel as (Hb & Hd & Ha).
    unfold select_prompt, getitem, dict_get, obind.
    destruct a; simpl; rewrite ?Hdoc, ?Hai.
    + rewrite lookup_insert_ne, lookup_insert_eq by done. simpl.
      by rewrite !lookup_insert_ne, lookup_empty by done.
    + rewrite lookup_insert_ne, lookup_insert_eq by done. simpl.
      by rewrite !lookup_insert_ne, lookup_empty by done.
Qed.

Lemma prompt_catalog_lookup_witness :
  select_prompt sample_session "AI Code Detection" "advanced" = Ret ai_detection_advanced
  ∧ select_prompt sample_session "Documentation Generator" "expert"
    = Ret documentation_detailed.
Proof.
  pose proof (prompt_catalog_lookup refuses_empty_key sample_environ first_run sample_session
                init_sample) as (Hpairs & _ & _ & Hfallback).
  split.
  - apply (Hpairs AIDetection advanced).
  - apply (Hfallback Documentation "expert"). vm_compute.
    intros H. repeat (apply elem_of_cons in H as [H|H]; [discriminate H|]).
    by apply elem_of_nil in H.
Defined.

(** ** LLM analyzer *)

(** C9. For every prompt and snippet the analyzer makes exactly one model
    request, on the client that [init] built with temperature 0.7, whose
    instruction is the prompt, two newlines and the snippet.  It returns the
    content of the answer unchanged; when the invocation raises, the error is
    shown as a message and [None] is returned, so nothing is raised to the
    caller. *)
Theorem analyze_with_llm_request (refuses : LlmClient → option string)
    (environ : gmap string string) (kept : Persisted)
    (ss : Session) (code_snippet prompt : string) (W : World) (p : Place)
    (c : Clock) :
  init refuses environ kept = Ret ss →
  temperature (llm ss) = 0.7%Q
  ∧ instruction prompt code_snippet
    = prompt +:+ String (ascii_of_nat 10) (String (ascii_of_nat 10) code_snippet)
  ∧ ∃ result shown,
      analyze_with_llm ss code_snippet prompt W p c
      = (Ret result, {| gets := gets c; invokes := S (invokes c) |},
         LlmInvoke (llm ss) (instruction prompt code_snippet) :: shown)
      ∧ match model W (invokes c) (llm ss) (instruction prompt code_snippet) with
        | Content answer => result = Some answer ∧ shown = []
        | LlmRaised msg =>
            result = None
            ∧ shown = [Ui p (st_error ("OpenAI API Error: " +:+ msg))]
        end.
Proof.
  intros Hinit.
  destruct (init_session _ _ _ _ Hinit) as (_ & _ & _ & Htemp & _).
  split; [exact Htemp|]. split; [reflexivity|].
  unfold analyze_with_llm, try_except, bind, llm_invoke.
  destruct (model W (invokes c) (llm ss) (instruction prompt code_snippet))
    as [answer|msg]; simpl; eauto.
Qed.

Lemma analyze_with_llm_request_witness :
  temperature (llm sample_session) = 0.7%Q
  ∧ instruction documentation_basic "print(1)"
    = documentation_basic +:+
        String (ascii_of_nat 10) (String (ascii_of_nat 10) "print(1)")
  ∧ ∃ result shown,
      analyze_with_llm sample_session "print(1)" documentation_basic
        offline_world Page {| gets := 0; invokes := 0 |}
      = (Ret result, {| gets := 0; invokes := 1 |},
         LlmInvoke (llm sample_session) (instruction documentation_basic "print(1)")
           :: shown)
      ∧ match model offline_world 0 (llm sample_session)
                (instruction documentation_basic "print(1)") with
        | Content answer => result = Some answer ∧ shown = []
        | LlmRaised msg =>
            result = None
            ∧ shown = [Ui Page (st_error ("OpenAI API Error: " +:+ msg))]
        end.
Proof.
  apply (analyze_with_llm_request refuses_empty_key sample_environ first_run sample_session
           "print(1)" documentation_basic offline_world Page
           {| gets := 0; invokes := 0 |}).
  vm_compute. reflexivity.
Defined.

(** ** GitHub search client *)

Lemma raise_for_status_error (r : Response) W p c :
  error_status (status_code r) →
  ∃ msg, raise_for_status r W p c = (Raise (RequestException msg), c, []).
Proof.
  intros [Hlo Hhi]. unfold raise_for_status.
  destruct (decide (status_code r < 500)%Z) as [Hlt|Hge].
  - replace ((400 <=? status_code r)%Z && (status_code r <? 500)%Z) with true
      by (symmetry; apply andb_true_intro; split;
          [apply Z.leb_le|apply Z.ltb_lt]; lia).
    by eexists.
  - replace ((400 <=? status_code r)%Z && (status_code r <? 500)%Z) with false
      by (symmetry; apply andb_false_intro2, Z.ltb_ge; lia).
    replace ((500 <=? status_code r)%Z && (status_code r <? 600)%Z) with true
      by (symmetry; apply andb_true_intro; split;
          [apply Z.leb_le|apply Z.ltb_lt]; lia).
    by eexists.
Qed.

Lemma raise_for_status_pass (r : Response) W p c :
  ¬ error_status (status_code r) →
  raise_for_status r W p c = (Ret tt, c, []).
Proof.
  intros Hok. unfold raise_for_status, error_status in *.
  replace ((400 <=? status_code r)%Z && (status_code r <? 500)%Z) with false.
  2:{ symmetry. apply andb_false_iff.
      destruct (decide (400 ≤ status_code r)%Z);
        [right; apply Z.ltb_ge|left; apply Z.leb_gt]; lia. }
  replace ((500 <=? status_code r)%Z && (status_code r <? 600)%Z) with false.
  2:{ symmetry. apply andb_false_iff.
      destruct (decide (500 ≤ status_code r)%Z);
        [right; apply Z.ltb_ge|left; apply Z.leb_gt]; lia. }
  done.
Qed.

(** C8, as stated, fails: status 300 is not a 2xx status, yet the client
    reports no error and returns the parsed body with its items. *)
Lemma search_returns_items_on_status_300 :
  http multiple_choices_world 0 (search_request sample_session "cnn")
  = Responded (sample_response 300 "" (inr one_hit))
  ∧ ¬ (200 ≤ status_code (sample_response 300 "" (inr one_hit)) < 300)%Z
  ∧ run (search_github_code sample_session "cnn") multiple_choices_world
    = (Ret (Some one_hit), {| gets := 1; invokes := 0 |},
       [HttpGet (search_request sample_session "cnn")])
  ∧ items one_hit = Some [sample_item "a.py"].
Proof.
  split; [reflexivity|]. split; [simpl; lia|]. split; reflexivity.
Qed.

(** C8 (amended). One call of the search client issues exactly one GET, to
    the configured URL with [q=<query>] and the three headers set by [init],
    and never raises.  On a transport error, on a status from 400 to 599 and
    on a body that is not JSON it shows "GitHub API Error: ..." and returns
    [None]; on any other status with a JSON body it returns the parsed body
    and shows nothing. *)
Theorem search_github_code_result (refuses : LlmClient → option string)
    (environ : gmap string string) (kept : Persisted)
    (ss : Session) (query : string) (W : World) (p : Place) (c : Clock) :
  init refuses environ kept = Ret ss →
  let req := search_request ss query in
  (∃ github_key,
     environ !! "GITHUB_API_KEY" = Some github_key
     ∧ environ !! "GITHUB_API_URL" = Some (url req)
     ∧ params req = {[ "q" := query ]}
     ∧ map_to_list (headers req)
       ≡ₚ [ ("Accept", "application/vnd.github+json");
            ("Authorization", "Bearer " +:+ github_key);
            ("X-GitHub-Api-Version", "2022-11-28") ])
  ∧ ∃ result shown,
      search_github_code ss query W p c
      = (Ret result, {| gets := S (gets c); invokes := invokes c |},
         HttpGet req :: shown)
      ∧ match http W (gets c) req with
        | TransportError msg =>
            result = None
            ∧ shown = [Ui p (st_error ("GitHub API Error: " +:+ msg))]
        | Responded r =>
            if decide (error_status (status_code r)) then
              result = None
              ∧ ∃ msg, shown = [Ui p (st_error ("GitHub API Error: " +:+ msg))]
            else
              match json r with
              | inr body => result = Some body ∧ shown = []
              | inl msg =>
                  result = None
                  ∧ shown = [Ui p (st_error ("GitHub API Error: " +:+ msg))]
              end
        end.
Proof.
  intros Hinit req.
  destruct (init_session _ _ _ _ Hinit) as (key & Hkey & Hurl & _ & Hheaders & _).
  split.
  - exists key. repeat split; [done|done|].
    unfold req, search_request; simpl. rewrite Hheaders.
    rewrite !map_to_list_insert, map_to_list_empty;
      solve [ done
            | apply lookup_empty
            | by rewrite !lookup_insert_ne, lookup_empty by done ].
  - unfold search_github_code, try_except.
    unfold bind at 1. unfold requests_get at 1. fold req.
    destruct (http W (gets c) req) as [r|msg]; simpl; [|eauto].
    case_decide as Hstatus.
    + destruct (raise_for_status_error r W p
                  {| gets := S (gets c); invokes := invokes c |} Hstatus)
        as [msg Hraise].
      unfold bind at 1. rewrite Hraise. simpl. eauto 10.
    + unfold bind at 1. rewrite (raise_for_status_pass r W p _ Hstatus).
      unfold bind, response_json. destruct (json r) as [msg|body]; simpl; eauto.
Qed.

Lemma search_github_code_result_witness :
  ∃ result shown,
    search_github_code sample_session "cnn" multiple_choices_world Page
      {| gets := 0; invokes := 0 |}
    = (Ret result, {| gets := 1; invokes := 0 |},
       HttpGet (search_request sample_session "cnn") :: shown)
    ∧ result = Some one_hit ∧ shown = [].
Proof.
  destruct (search_github_code_result refuses_empty_key sample_environ first_run sample_session
              "cnn" multiple_choices_world Page {| gets := 0; invokes := 0 |})
    as (_ & result & shown & Hrun & Hcase).
  - vm_compute. reflexivity.
  - exists result, shown. split; [exact Hrun|]. exact Hcase.
Defined.

(** ** The batch over the search hits *)

Section Batch.
Variables (ss : Session) (prompt : string) (W : World).

(** One pass of the loop body, by the answers of the world. *)
Lemma process_item_run (it : Item) (p : Place) (c : Clock) :
  process_item ss prompt it W p c =
  match http W (gets c) (raw_request it) with
  | TransportError msg =>
      (Raise (RequestException msg),
       {| gets := S (gets c); invokes := invokes c |},
       [HttpGet (raw_request it)])
  | Responded r =>
      if decide (status_code r = 200%Z) then
        (Ret tt, {| gets := S (gets c); invokes := S (invokes c) |},
         panel ss prompt it r
           (model W (invokes c) (llm ss)
              (instruction prompt (code_snippet_of (text r)))))
      else
        (Ret tt, {| gets := S (gets c); invokes := invokes c |},
         panel ss prompt it r
           (model W (invokes c) (llm ss)
              (instruction prompt (code_snippet_of (text r)))))
  end.
Proof.
  unfold process_item, within, panel.
  unfold bind at 1. unfold requests_get at 1.
  destruct (http W (gets c) (raw_request it)) as [r|msg]; [|done].
  destruct (Z.eqb_spec (status_code r) 200) as [Hok|Hbad];
    case_decide; try done.
  unfold analyze_with_llm, try_except, bind, llm_invoke, st, ret,
    analysis_shown. simpl.
  destruct (model W (invokes c) (llm ss)
              (instruction prompt (code_snippet_of (text r)))) as [answer|msg];
    simpl; [|done].
  destruct answer as [|ch answer]; simpl; try case_decide; done.
Qed.

Lemma network_panel (it : Item) (r : Response) (a : LlmOutcome) :
  network (panel ss prompt it r a) =
  if decide (status_code r = 200%Z)
  then [ HttpGet (raw_request it);
         LlmInvoke (llm ss) (instruction prompt (code_snippet_of (text r))) ]
  else [ HttpGet (raw_request it) ].
Proof.
  unfold panel, analysis_shown. case_decide; [|done].
  destruct a as [answer|msg]; [case_decide|]; done.
Qed.

(** Whatever the world answers, the requests of the loop follow the items. *)
Lemma for_each_fetch_then_analyze (l : list Item) (p : Place) (c : Clock) :
  ∀ o c' t,
    for_each l (process_item ss prompt) W p c = (o, c', t) →
    fetch_then_analyze (llm ss) prompt l (network t)
    ∧ gets c ≤ gets c' ≤ gets c + length l
    ∧ invokes c ≤ invokes c'
    ∧ invokes c' + gets c ≤ gets c' + invokes c.
Proof.
  revert c. induction l as [|it l IH]; intros c o c' t Hrun.
  - inversion Hrun; subst. simpl. repeat split; [constructor|lia..].
  - simpl in Hrun. unfold bind in Hrun. rewrite process_item_run in Hrun.
    destruct (http W (gets c) (raw_request it)) as [r|msg].
    + pose proof (network_panel it r
                    (model W (invokes c) (llm ss)
                       (instruction prompt (code_snippet_of (text r))))) as Hnet.
      case_decide as Hstatus.
      * destruct (for_each l (process_item ss prompt) W p _)
          as [[o2 c2] t2] eqn:Hrest.
        inversion Hrun; subst.
        destruct (IH _ _ _ _ Hrest) as (Hfta & Hgets & Hmono & Hinv).
        simpl in *. unfold network in *. rewrite List.filter_app, Hnet.
        repeat split; [simpl; by constructor|lia..].
      * destruct (for_each l (process_item ss prompt) W p _)
          as [[o2 c2] t2] eqn:Hrest.
        inversion Hrun; subst.
        destruct (IH _ _ _ _ Hrest) as (Hfta & Hgets & Hmono & Hinv).
        simpl in *. unfold network in *. rewrite List.filter_app, Hnet.
        repeat split; [simpl; by constructor|lia..].
    + inversion Hrun; subst. simpl.
      repeat split; [apply fta_fetch, fta_stop|lia..].
Qed.

(** When every fetch is answered, the loop runs to its end and leaves one
    panel per item. *)
Lemma for_each_panels (respond : nat → Request → Response) (l : list Item)
    (p : Place) (c : Clock) :
  (∀ n req, http W n req = Responded (respond n req)) →
  ∃ panels c',
    for_each l (process_item ss prompt) W p c = (Ret tt, c', concat panels)
    ∧ length panels = length l
    ∧ gets c' = gets c + length l
    ∧ ∀ k it, l !! k = Some it →
        ∃ m, panels !! k
             = Some (panel ss prompt it (respond (gets c + k) (raw_request it))
                       (model W m (llm ss)
                          (instruction prompt
                             (code_snippet_of
                                (text (respond (gets c + k) (raw_request it))))))).
Proof.
  intros Hresp. revert c. induction l as [|it l IH]; intros c.
  - exists [], c. simpl. repeat split; [lia|]. intros k it Hk. done.
  - simpl. unfold bind. rewrite process_item_run, Hresp.
    set (r := respond (gets c) (raw_request it)).
    set (a := model W (invokes c) (llm ss)
                (instruction prompt (code_snippet_of (text r)))).
    assert (Hstep : ∀ c1, gets c1 = S (gets c) →
              ∃ panels c',
                (let '(o, c2, t2) := for_each l (process_item ss prompt) W p c1 in
                 (o, c2, panel ss prompt it r a ++ t2))
                = (Ret tt, c', concat panels)
                ∧ length panels = length (it :: l)
                ∧ gets c' = gets c + length (it :: l)
                ∧ ∀ k it', (it :: l) !! k = Some it' →
                    ∃ m, panels !! k
                         = Some (panel ss prompt it'
                                   (respond (gets c + k) (raw_request it'))
                                   (model W m (llm ss)
                                      (instruction prompt
                                         (code_snippet_of
                                            (text (respond (gets c + k)
                                                     (raw_request it')))))))).
    { intros c1 Hc1.
      destruct (IH c1) as (panels & c' & Hrun & Hlen & Hgets & Hpanels).
      exists (panel ss prompt it r a :: panels), c'. rewrite Hrun. simpl.
      repeat split; [lia|lia|].
      intros [|k] it' Hk; simpl in *.
      - inversion Hk; subst. exists (invokes c).
        by rewrite Nat.add_0_r.
      - destruct (Hpanels k it' Hk) as [m Hm]. exists m.
        rewrite Hm, Hc1. by replace (S (gets c) + k) with (gets c + S k) by lia. }
    case_decide; apply Hstep; done.
Qed.

End Batch.

(** What is shown for a search response holding a count and a list of hits. *)
Lemma show_results_found (ss : Session) (prompt : string) (n : Z)
    (its : list Item) (W : World) (p : Place) (c : Clock) :
  show_results ss prompt (Some {| total_count := Some n; items := Some its |}) W p c
  = let '(o, c', t) := for_each (take 3 its) (process_item ss prompt) W p c in
    (o, c', Ui p (st_success ("Found " +:+ PyStr.str n +:+ " results")) :: t).
Proof.
  unfold show_results, bind, lift, st. simpl.
  by destruct (for_each (take 3 its) (process_item ss prompt) W p c) as [[o c'] t].
Qed.

(** The search client on a response it accepts. *)
Lemma search_github_code_ok (ss : Session) (query : string) (W : World)
    (p : Place) (c : Clock) (r : Response) (body : SearchResults) :
  http W (gets c) (search_request ss query) = Responded r →
  ¬ error_status (status_code r) →
  json r = inr body →
  search_github_code ss query W p c
  = (Ret (Some body), {| gets := S (gets c); invokes := invokes c |},
     [HttpGet (search_request ss query)]).
Proof.
  intros Hhttp Hstatus Hjson.
  unfold search_github_code, try_except.
  unfold bind at 1. unfold requests_get at 1. rewrite Hhttp.
  unfold bind at 1. rewrite (raise_for_status_pass r W p _ Hstatus).
  unfold bind, response_json. by rewrite Hjson.
Qed.

Section Hits.
Variables (ss : Session) (prompt : string) (W : World).

Lemma gets_of_panel (it : Item) (r : Response) (a : LlmOutcome) :
  gets_of (panel ss prompt it r a) = [raw_request it].
Proof.
  unfold panel, analysis_shown. case_decide; [|done].
  destruct a as [answer|msg]; [case_decide|]; done.
Qed.

(** The loop runs as [hits_processed] describes. *)
Lemma for_each_hits_processed (l : list Item) (p : Place) (c c' : Clock)
    (o : Outcome unit) (t : list Event) :
  for_each l (process_item ss prompt) W p c = (o, c', t) →
  hits_processed ss prompt W c l o c' t.
Proof.
  revert c t. induction l as [|it l IH]; intros c t Hrun.
  - inversion Hrun; subst. constructor.
  - simpl in Hrun. unfold bind in Hrun. rewrite process_item_run in Hrun.
    destruct (http W (gets c) (raw_request it)) as [r|msg] eqn:Hhttp.
    + case_decide as Hstatus;
        destruct (for_each l (process_item ss prompt) W p _)
          as [[o2 c2] t2] eqn:Hrest;
        inversion Hrun; subst;
        apply (hp_hit ss prompt W c it l r _ _ _ Hhttp);
        apply IH; by case_decide.
    + inversion Hrun; subst. by apply hp_raise.
Qed.

(** In a run of the loop the hits are fetched in their order, one GET each;
    all of them when the loop ends normally. *)
Lemma hits_processed_gets (l : list Item) (c c' : Clock) (o : Outcome unit)
    (t : list Event) :
  hits_processed ss prompt W c l o c' t →
  gets_of t `prefix_of` map raw_request l
  ∧ (o = Ret tt → gets_of t = map raw_request l).
Proof.
  induction 1 as [c|c it its r o c' t Hhttp _ [IHpre IHall]|c it its msg Hhttp].
  - split; [done|done].
  - unfold gets_of in *. rewrite flat_map_app.
    fold (gets_of (panel ss prompt it r
                     (model W (invokes c) (llm ss)
                        (instruction prompt (code_snippet_of (text r)))))).
    rewrite gets_of_panel. simpl. split.
    + by apply prefix_cons.
    + intros Ho. by rewrite (IHall Ho).
  - simpl. split; [|done]. apply prefix_cons, prefix_nil.
Qed.

End Hits.

(** C6 (amended). After a successful (2xx) search response carrying a count
    and a list of hits, the handler shows "Found <count> results" and then
    processes the first three hits (all of them when there are fewer), in
    order and no other: each is fetched, a hit fetched with status 200 is
    analysed right after its fetch, and the loop stops early only when a
    fetch raises.  With an empty list of hits nothing follows the banner: no
    fetch, no analysis, no panel; the page then shows "Found <count> results"
    with the count of the response, which tells that nothing was found when
    the count is 0. *)
Theorem first_three_hits_processed (ss : Session) (i : Inputs) (W : World)
    (p : Place) (c : Clock) (prompt : string) (r : Response) (n : Z)
    (its : list Item) :
  search_query i ≠ "" →
  select_prompt ss (analysis_mode i) (prompt_level i) = Ret prompt →
  http W (gets c) (search_request ss (enhanced_query i)) = Responded r →
  (200 ≤ status_code r < 300)%Z →
  json r = inr {| total_count := Some n; items := Some its |} →
  ∃ o c' shown,
    on_analyze ss i W p c
    = (o, c',
       Ui p (st_write ("Enhanced Query: " +:+ enhanced_query i))
       :: HttpGet (search_request ss (enhanced_query i))
       :: Ui p (st_success ("Found " +:+ PyStr.str n +:+ " results"))
       :: shown)
    ∧ hits_processed ss prompt W
        {| gets := S (gets c); invokes := invokes c |} (take 3 its) o c' shown
    ∧ gets_of shown `prefix_of` map raw_request (take 3 its)
    ∧ (o = Ret tt → gets_of shown = map raw_request (take 3 its))
    ∧ fetch_then_analyze (llm ss) prompt (take 3 its) (network shown)
    ∧ gets c' ≤ S (gets c) + 3
    ∧ invokes c' ≤ invokes c + 3
    ∧ (its = [] →
       o = Ret tt
       ∧ c' = {| gets := S (gets c); invokes := invokes c |}
       ∧ shown = []
       ∧ (n = 0%Z →
          no_results_state
            [ Ui p (st_write ("Enhanced Query: " +:+ enhanced_query i));
              HttpGet (search_request ss (enhanced_query i));
              Ui p (st_success ("Found " +:+ PyStr.str n +:+ " results")) ])).
Proof.
  intros Hq Hprompt Hhttp Hstatus Hjson.
  rewrite (on_analyze_nonempty ss i W p c prompt Hq Hprompt).
  rewrite (search_github_code_ok ss _ W p c r _ Hhttp) by
    (done || unfold error_status; lia).
  rewrite show_results_found.
  destruct (for_each (take 3 its) (process_item ss prompt) W p _)
    as [[o c'] shown] eqn:Hloop.
  exists o, c', shown. split; [done|].
  pose proof (for_each_hits_processed ss prompt W _ p _ _ _ _ Hloop) as Hhits.
  destruct (hits_processed_gets ss prompt W _ _ _ _ _ Hhits) as [Hpre Hall].
  destruct (for_each_fetch_then_analyze ss prompt W _ p _ _ _ _ Hloop)
    as (Hfta & Hgets & Hmono & Hinv). simpl in *.
  rewrite length_take in Hgets.
  split; [done|]. split; [done|]. split; [done|].
  split; [done|]. split; [lia|]. split; [lia|].
  intros ->. simpl in Hloop. inversion Hloop; subst.
  split; [done|]. split; [done|]. split; [done|].
  intros ->. exists p. right.
  do 2 apply list_elem_of_further. apply list_elem_of_here.
Qed.

Lemma first_three_hits_processed_witness :
  ∃ o c' shown,
    on_analyze sample_session (bare_inputs "cnn") sample_world Page
      {| gets := 0; invokes := 0 |}
    = (o, c',
       Ui Page (st_write ("Enhanced Query: " +:+ enhanced_query (bare_inputs "cnn")))
       :: HttpGet (search_request sample_session (enhanced_query (bare_inputs "cnn")))
       :: Ui Page (st_success ("Found " +:+ PyStr.str 5 +:+ " results"))
       :: shown)
    ∧ hits_processed sample_session documentation_basic sample_world
        {| gets := 1; invokes := 0 |}
        [sample_item "a.py"; sample_item "b.py"; sample_item "c.py"] o c' shown
    ∧ (o = Ret tt →
       gets_of shown
       = [ raw_request (sample_item "a.py"); raw_request (sample_item "b.py");
           raw_request (sample_item "c.py") ])
    ∧ fetch_then_analyze (llm sample_session) documentation_basic
        [sample_item "a.py"; sample_item "b.py"; sample_item "c.py"]
        (network shown)
    ∧ gets c' ≤ 4
    ∧ invokes c' ≤ 3.
Proof.
  destruct (first_three_hits_processed sample_session (bare_inputs "cnn")
              sample_world Page {| gets := 0; invokes := 0 |} documentation_basic
              (sample_respond 0 (search_request sample_session "cnn ")) 5
              [ sample_item "a.py"; sample_item "b.py"; sample_item "c.py";
                sample_item "d.py"; sample_item "e.py" ])
    as (o & c' & shown & Hrun & Hhits & _ & Hall & Hfta & Hgets & Hinv & _).
  - vm_compute. congruence.
  - vm_compute. reflexivity.
  - reflexivity.
  - simpl. lia.
  - reflexivity.
  - exists o, c', shown. repeat split; assumption.
Defined.

(** C6, as stated, fails: the search answers with no hit and a count of 5;
    nothing is fetched or analysed, but the page says "Found 5 results" and
    nothing tells the user that there is no result. *)
Lemma no_hits_shown_as_found :
  items count_without_hits = Some []
  ∧ run (on_analyze sample_session (bare_inputs "cnn")) count_without_hits_world
    = (Ret tt, {| gets := 1; invokes := 0 |},
       [ Ui Page (st_write "Enhanced Query: cnn ");
         HttpGet (search_request sample_session "cnn ");
         Ui Page (st_success "Found 5 results") ])
  ∧ ¬ no_results_state
        [ Ui Page (st_write "Enhanced Query: cnn ");
          HttpGet (search_request sample_session "cnn ");
          Ui Page (st_success "Found 5 results") ].
Proof.
  split; [reflexivity|]. split; [vm_compute; reflexivity|].
  intros [place [Hin|Hin]];
    repeat (apply elem_of_cons in Hin as [Hin|Hin]; [discriminate Hin|]);
    by apply elem_of_nil in Hin.
Qed.

(** X15. When every content fetch of the batch is answered with some status
    (200 or not) and whatever the model does (answer, empty answer,
    exception), the loop over the first three hits ends normally: no
    exception leaves it, every hit is fetched, and every hit has its own
    panel in the order of the hits.  The panel of a hit whose fetch was not
    answered with 200 holds "Failed to retrieve code content"; the panel of a
    hit fetched with 200 holds its snippet and the analysis, or, when the
    model raised or answered nothing, the error messages in its analysis
    tab.  A failure of one hit leaves the panels of the others as they would
    be without it. *)
Theorem batch_survives_item_failures (ss : Session) (prompt : string)
    (W : World) (respond : nat → Request → Response) (p : Place) (c : Clock)
    (n : Z) (its : list Item) :
  (∀ k req, http W k req = Responded (respond k req)) →
  ∃ panels c',
    show_results ss prompt
      (Some {| total_count := Some n; items := Some its |}) W p c
    = (Ret tt, c',
       Ui p (st_success ("Found " +:+ PyStr.str n +:+ " results"))
       :: concat panels)
    ∧ length panels = length (take 3 its)
    ∧ gets c' = gets c + length (take 3 its)
    ∧ ∀ k it, take 3 its !! k = Some it →
        ∃ m, panels !! k
             = Some (panel ss prompt it (respond (gets c + k) (raw_request it))
                       (model W m (llm ss)
                          (instruction prompt
                             (code_snippet_of
                                (text (respond (gets c + k) (raw_request it))))))).
Proof.
  intros Hresp. rewrite show_results_found.
  destruct (for_each_panels ss prompt W respond (take 3 its) p c Hresp)
    as (panels & c' & Hrun & Hlen & Hgets & Hpanels).
  exists panels, c'. by rewrite Hrun.
Qed.

Lemma batch_survives_item_failures_witness :
  ∃ panels c',
    show_results sample_session documentation_basic (Some five_hits)
      sample_world Page {| gets := 1; invokes := 0 |}
    = (Ret tt, c',
       Ui Page (st_success ("Found " +:+ PyStr.str 5 +:+ " results"))
       :: concat panels)
    ∧ length panels = 3
    ∧ gets c' = 4.
Proof.
  destruct (batch_survives_item_failures sample_session documentation_basic
              sample_world sample_respond Page {| gets := 1; invokes := 0 |} 5
              [ sample_item "a.py"; sample_item "b.py"; sample_item "c.py";
                sample_item "d.py"; sample_item "e.py" ])
    as (panels & c' & Hrun & Hlen & Hgets & _).
  - intros k req. reflexivity.
  - exists panels, c'. repeat split; assumption.
Defined.

(** The scenario of the specification: of five hits the first three are
    processed; the second cannot be fetched (404) and the model fails on the
    third, yet the first is analysed and all three are fetched. *)
Example second_of_three_fails :
  run (on_analyze sample_session (bare_inputs "cnn")) sample_world
  = (Ret tt, {| gets := 4; invokes := 2 |},
     [ Ui Page (st_write "Enhanced Query: cnn ");
       HttpGet (search_request sample_session "cnn ");
       Ui Page (st_success "Found 5 results");
       HttpGet (raw_request (sample_item "a.py"));
       Ui (GithubTab "File: a.py (Repo: octo/repo)")
         (st_subheader "File: a.py (Repo: octo/repo)");
       Ui (GithubTab "File: a.py (Repo: octo/repo)") (st_code "print(1)" "python");
       LlmInvoke (llm sample_session) (instruction documentation_basic "print(1)");
       Ui (AnalysisTab "File: a.py (Repo: octo/repo)") (st_write "Prints one.");
       HttpGet (raw_request (sample_item "b.py"));
       Ui (Expander "File: b.py (Repo: octo/repo)")
         (st_error "Failed to retrieve code content");
       HttpGet (raw_request (sample_item "c.py"));
       Ui (GithubTab "File: c.py (Repo: octo/repo)")
         (st_subheader "File: c.py (Repo: octo/repo)");
       Ui (GithubTab "File: c.py (Repo: octo/repo)") (st_code "print(1)" "python");
       LlmInvoke (llm sample_session) (instruction documentation_basic "print(1)");
       Ui (AnalysisTab "File: c.py (Repo: octo/repo)")
         (st_error "OpenAI API Error: rate limit");
       Ui (AnalysisTab "File: c.py (Repo: octo/repo)")
         (st_error "Failed to analyze code.") ]).
Proof. vm_compute. reflexivity. Qed.

(** C7. A fetch failure of one hit can abort the batch: the content fetch
    (line 237) is not guarded by a [try], unlike the search and the model
    call.  Here the connection drops at the fetch of the second of the first
    three hits: the exception leaves the loop and the click, nothing is
    shown in place of that hit, and the third hit is never fetched. *)
Example fetch_transport_error_escapes :
  run (on_analyze sample_session (bare_inputs "cnn")) dropping_world
  = (Raise (RequestException "connection reset"), {| gets := 3; invokes := 1 |},
     [ Ui Page (st_write "Enhanced Query: cnn ");
       HttpGet (search_request sample_session "cnn ");
       Ui Page (st_success "Found 5 results");
       HttpGet (raw_request (sample_item "a.py"));
       Ui (GithubTab "File: a.py (Repo: octo/repo)")
         (st_subheader "File: a.py (Repo: octo/repo)");
       Ui (GithubTab "File: a.py (Repo: octo/repo)") (st_code "print(1)" "python");
       LlmInvoke (llm sample_session) (instruction documentation_basic "print(1)");
       Ui (AnalysisTab "File: a.py (Repo: octo/repo)") (st_write "Prints one.");
       HttpGet (raw_request (sample_item "b.py")) ]).
Proof. vm_compute. reflexivity. Qed.

(** ** Raw-content URL *)

(** When [/blob] occurs only as the segment after the repository and the
    host prefix only at the start, the transform is the intended one. *)
Section Replace.

Lemma str_app_assoc (a b c : string) : (a +:+ b) +:+ c = a +:+ b +:+ c.
Proof.
  induction a as [|ch a IH]; [done|].
  change (String ch ((a +:+ b) +:+ c) = String ch (a +:+ b +:+ c)).
  by rewrite IH.
Qed.

Lemma str_length_app (a b : string) :
  String.length (a +:+ b) = String.length a + String.length b.
Proof.
  induction a as [|ch a IH]; [done|].
  change (S (String.length (a +:+ b)) = S (String.length a + String.length b)).
  by rewrite IH.
Qed.

Lemma startswith_inv (p s : string) :
  PyStr.startswith p s = true → ∃ b, s = p +:+ b.
Proof.
  revert s. induction p as [|a p IH]; intros s Hpre; [by exists s|].
  destruct s as [|b s]; [done|]. simpl in Hpre.
  destruct (Ascii.eqb_spec a b) as [->|]; [|done].
  destruct (IH s Hpre) as [rest ->]. by exists rest.
Qed.

Lemma startswith_shorter (p u b : string) :
  PyStr.startswith p (u +:+ b) = true →
  String.length p ≤ String.length u →
  PyStr.startswith p u = true.
Proof.
  revert u. induction p as [|a p IH]; intros u Hpre Hlen; [done|].
  destruct u as [|c u]; simpl in *; [lia|].
  destruct (Ascii.eqb a c); [|done]. apply IH; [done|lia].
Qed.

Lemma replace_from_skip (a b old new : string) :
  PyStr.replace_from (String.length a) old new (a +:+ b)
  = PyStr.replace_from 0 old new b.
Proof. induction a as [|ch a IH]; simpl; done. Qed.

Lemma replace_from_absent (old new s : string) :
  ¬ occurs old s → PyStr.replace_from 0 old new s = s.
Proof.
  induction s as [|ch s IH]; intros Habsent; [done|].
  cbn [PyStr.replace_from].
  destruct (PyStr.startswith old (String ch s)) eqn:Hpre.
  - exfalso. apply Habsent. apply startswith_inv in Hpre as [b Hb].
    by exists "", b.
  - f_equal. apply IH. intros (a & b & ->). apply Habsent.
    by exists (String ch a), b.
Qed.

Lemma replace_from_first (a b old new : string) :
  old ≠ "" →
  occurs_only_at_end old (a +:+ old) →
  PyStr.replace_from 0 old new (a +:+ old +:+ b)
  = a +:+ new +:+ PyStr.replace_from 0 old new b.
Proof.
  intros Hold. induction a as [|ch a IH]; intros Hend.
  - destruct old as [|o old]; [done|].
    change ("" +:+ String o old +:+ b) with (String o (old +:+ b)).
    cbn [PyStr.replace_from].
    change (String o (old +:+ b)) with (String o old +:+ b).
    rewrite startswith_app. simpl. rewrite Nat.sub_0_r.
    by rewrite replace_from_skip.
  - change (String ch a +:+ old +:+ b) with (String ch (a +:+ old +:+ b)).
    cbn [PyStr.replace_from].
    destruct (PyStr.startswith old (String ch (a +:+ old +:+ b))) eqn:Hpre.
    + exfalso.
      assert (Hin : PyStr.startswith old (String ch a +:+ old) = true).
      { apply (startswith_shorter old (String ch a +:+ old) b).
        - by rewrite str_app_assoc.
        - rewrite str_length_app. lia. }
      apply startswith_inv in Hin as [rest Hrest].
      assert (rest = "") as ->.
      { apply (Hend "" rest). exact Hrest. }
      apply (f_equal String.length) in Hrest.
      rewrite !str_length_app in Hrest. simpl in Hrest. lia.
    + change (String ch (PyStr.replace_from 0 old new (a +:+ old +:+ b))
              = String ch (a +:+ new +:+ PyStr.replace_from 0 old new b)).
      f_equal. apply IH. intros x y Hxy.
      apply (Hend (String ch x) y).
      change (String ch (a +:+ old) = String ch (x +:+ old +:+ y)).
      by rewrite Hxy.
Qed.

Lemma occurs_only_at_end_self (old : string) : occurs_only_at_end old old.
Proof.
  intros a b Heq. apply (f_equal String.length) in Heq.
  rewrite !str_length_app in Heq. destruct b; [done|]. simpl in Heq. lia.
Qed.

Lemma replace_from_head (b old new : string) :
  old ≠ "" →
  PyStr.replace_from 0 old new (old +:+ b)
  = new +:+ PyStr.replace_from 0 old new b.
Proof.
  intros Hold.
  exact (replace_from_first "" b old new Hold (occurs_only_at_end_self old)).
Qed.

Lemma replace_host_then_segment (host raw segment mid post : string) :
  host ≠ "" → segment ≠ "" →
  ¬ occurs host (mid +:+ segment +:+ post) →
  occurs_only_at_end segment ((raw +:+ mid) +:+ segment) →
  ¬ occurs segment post →
  PyStr.replace segment "" (PyStr.replace host raw (host +:+ mid +:+ segment +:+ post))
  = raw +:+ mid +:+ post.
Proof.
  intros Hhost Hsegment Hno_host Hone Hno_segment.
  assert (Hfirst : PyStr.replace host raw (host +:+ mid +:+ segment +:+ post)
                   = (raw +:+ mid) +:+ segment +:+ post).
  { destruct host as [|h host]; [done|]. unfold PyStr.replace.
    rewrite replace_from_head by done.
    rewrite replace_from_absent by done.
    by rewrite str_app_assoc. }
  rewrite Hfirst.
  destruct segment as [|g segment]; [done|]. unfold PyStr.replace.
  rewrite replace_from_first by done.
  rewrite replace_from_absent by done.
  by rewrite str_app_assoc.
Qed.

(** X11. For a blob URL [https://github.com/<owner/repo>/blob/<branch/path>]
    in which the host prefix occurs nowhere after the start and [/blob]
    occurs only as the segment after the repository, the transform gives
    [https://raw.githubusercontent.com/<owner/repo>/<branch/path>]. *)
Lemma raw_url_of_blob_url (it : Item) (owner_repo branch_path : string) :
  html_url it = "https://github.com/" +:+ owner_repo +:+ "/blob/" +:+ branch_path →
  ¬ occurs "https://github.com" ("/" +:+ owner_repo +:+ "/blob/" +:+ branch_path) →
  occurs_only_at_end "/blob"
    ("https://raw.githubusercontent.com/" +:+ owner_repo +:+ "/blob") →
  ¬ occurs "/blob" ("/" +:+ branch_path) →
  raw_url it
  = "https://raw.githubusercontent.com/" +:+ owner_repo +:+ "/" +:+ branch_path.
Proof.
  intros Hurl Hhost Hone Hsegment. unfold raw_url. rewrite Hurl.
  apply (replace_host_then_segment "https://github.com"
           "https://raw.githubusercontent.com" "/blob"
           ("/" +:+ owner_repo) ("/" +:+ branch_path)); done.
Qed.

End Replace.

(** An ordinary blob URL is mapped to its raw URL. *)
Example raw_url_plain :
  raw_url (sample_item "src/a.py")
  = "https://raw.githubusercontent.com/octo/repo/main/src/a.py".
Proof. reflexivity. Qed.

(** C3. The transform removes every occurrence of [/blob], not only the path
    segment after the repository: for the file [storage/blob.py] it yields
    the URL of [storage.py] instead of the raw URL of the file. *)
Example raw_url_mangles_blob_in_path :
  raw_url {| name := "blob.py";
             full_name := "octo/repo";
             html_url := "https://github.com/octo/repo/blob/main/storage/blob.py" |}
  = "https://raw.githubusercontent.com/octo/repo/main/storage.py"
  ∧ raw_url {| name := "blob.py";
               full_name := "octo/repo";
               html_url := "https://github.com/octo/repo/blob/main/storage/blob.py" |}
    ≠ "https://raw.githubusercontent.com/octo/repo/main/storage/blob.py".
Proof. split; [reflexivity|]. vm_compute. discriminate. Qed.

(** * Further properties of the script *)

(** ** Start-up *)

(** X1. [init] cannot succeed unless the environment defines the seven
    variables it reads and the constructor of the client accepts the five
    Azure settings.  With a variable missing it raises [KeyError] for the
    first missing one in reading order, unless the constructor has raised
    before, which it can only when the missing variable is one of the two
    GitHub ones, read after the client is built.  A run of [main] then ends
    with the exception of [init], having shown the title and nothing else
    and having sent no request. *)
Theorem init_needs_environ (refuses : LlmClient → option string)
    (environ : gmap string string) (kept : Persisted) :
  match first_missing environ with
  | Some k =>
      environ !! k = None
      ∧ ∃ e,
          init refuses environ kept = Raise e
          ∧ (e = KeyError k
             ∨ (k ∈ ["GITHUB_API_KEY"; "GITHUB_API_URL"]
                ∧ ∃ client msg, refuses client = Some msg ∧ e = OtherException msg))
          ∧ ∀ r1 r2 i W,
              run (main refuses environ kept r1 r2 i) W
              = (Raise e, {| gets := 0; invokes := 0 |},
                 [Ui Page (st_title "GitHub Code Analyzer SaaS")])
  | None =>
      Forall (λ k, is_Some (environ !! k)) required_environ
      ∧ ∃ client,
          temperature client = 0.7%Q
          ∧ match refuses client with
            | Some msg => init refuses environ kept = Raise (OtherException msg)
            | None => ∃ ss, init refuses environ kept = Ret ss ∧ llm ss = client
            end
  end.
Proof.
  unfold first_missing, required_environ, run, main, within, bind, lift, st, init,
    getitem, obind, new_client.
  cbn [List.find].
  repeat match goal with
         | |- context [bool_decide (environ !! ?k = None)] =>
             let E := fresh "E" in
             destruct (environ !! k) eqn:E;
             [rewrite bool_decide_eq_false_2 by done
             |rewrite bool_decide_eq_true_2 by done;
              split; [done|];
              try match goal with
                  | |- context [refuses ?cl] =>
                      let R := fresh "R" in
                      destruct (refuses cl) as [msg|] eqn:R;
                      [eexists; split; [reflexivity|]; split; [|done];
                       right; split; [set_solver|by eexists _, _]|]
                  end;
              eexists; split; [reflexivity|]; split; [by left|done]]
         end.
  split.
  { repeat (apply Forall_cons; split; [by eexists|]). done. }
  match goal with
  | |- context [refuses ?cl] =>
      exists cl; split; [reflexivity|];
      destruct (refuses cl) as [msg|] eqn:R; [reflexivity|by eexists]
  end.
Qed.

Lemma init_selection (refuses : LlmClient → option string)
    (environ : gmap string string) (kept : Persisted) (ss : Session) :
  init refuses environ kept = Ret ss →
  analysis_type ss = default "Documentation" (kept_analysis_type kept)
  ∧ prompt_complexity ss = default "basic" (kept_prompt_complexity kept).
Proof.
  unfold init, getitem, obind, new_client.
  repeat match goal with
         | |- context [environ !! ?k] =>
             let E := fresh "E" in
             destruct (environ !! k) eqn:E;
             [|try destruct (refuses _); discriminate]
         end.
  destruct (refuses _); [discriminate|].
  by intros [= <-].
Qed.

(** ** A rerun of the script *)

Lemma list_index_level (level : string) :
  level ∈ complexity_levels → ∃ n, list_index complexity_levels level = Ret n.
Proof.
  intros Hin. unfold complexity_levels in *.
  repeat (apply elem_of_cons in Hin as [->|Hin]; [by eexists|]).
  by apply elem_of_nil in Hin.
Qed.

(** X2. Once [init] has succeeded with a stored complexity that is one of the
    three levels (or none stored yet), a rerun shows the title, the heading
    and the introduction of the "Prompt Engineering" tab, "Selected Prompt:"
    with the preset of the two radio selections, the heading of the "Code
    Analysis" tab, and then behaves as the button of that tab alone: the
    radio selections have no influence on what a click requests or shows. *)
Theorem main_rerun (refuses : LlmClient → option string)
    (environ : gmap string string) (kept : Persisted)
    (ss : Session) (a : AnalysisType) (c : Complexity) (i : Inputs) (W : World) :
  init refuses environ kept = Ret ss →
  default "basic" (kept_prompt_complexity kept) ∈ complexity_levels →
  run (main refuses environ kept (radio_label a) (level_key c) i) W
  = let '(o, clock, t) := run (code_analysis_tab ss i) W in
    (o, clock,
     Ui Page (st_title "GitHub Code Analyzer SaaS")
     :: Ui Page (st_header "Prompt Engineering Lab")
     :: Ui Page (st_write
                   "Experiment with different prompts to optimize code analysis results")
     :: Ui Page (st_subheader "Selected Prompt:")
     :: Ui Page (st_info (preset a c))
     :: Ui Page (st_header "GitHub Code Search & Analysis")
     :: t).
Proof.
  intros Hinit Hkept.
  destruct (init_session _ _ _ _ Hinit) as (_ & _ & _ & _ & _ & Hdoc & Hai).
  destruct (init_selection _ _ _ _ Hinit) as [_ Hcomplexity].
  rewrite <- Hcomplexity in Hkept.
  destruct (list_index_level _ Hkept) as [n Hn].
  unfold run, main, within, bind, lift, st. rewrite Hinit.
  unfold prompt_engineering_tab, bind, lift, st.
  fold complexity_levels. rewrite Hn.
  assert (Hsel : selected_prompt (set_selection ss (radio_label a) (level_key c))
                 = Ret (preset a c)).
  { unfold selected_prompt, prompt_options, set_selection, getitem.
    destruct a, c; simpl; rewrite ?Hdoc, ?Hai; reflexivity. }
  rewrite Hsel. simpl.
  change (code_analysis_tab (set_selection ss (radio_label a) (level_key c)) i)
    with (code_analysis_tab ss i).
  by destruct (code_analysis_tab ss i W Page _) as [[o clock] t].
Qed.

Lemma main_rerun_witness :
  run (main refuses_empty_key sample_environ first_run "AI Detection" "advanced"
         (bare_inputs "")) offline_world
  = let '(o, clock, t) :=
      run (code_analysis_tab sample_session (bare_inputs "")) offline_world in
    (o, clock,
     Ui Page (st_title "GitHub Code Analyzer SaaS")
     :: Ui Page (st_header "Prompt Engineering Lab")
     :: Ui Page (st_write
                   "Experiment with different prompts to optimize code analysis results")
     :: Ui Page (st_subheader "Selected Prompt:")
     :: Ui Page (st_info ai_detection_advanced)
     :: Ui Page (st_header "GitHub Code Search & Analysis")
     :: t).
Proof.
  apply (main_rerun refuses_empty_key sample_environ first_run sample_session
           AIDetection advanced (bare_inputs "") offline_world).
  - vm_compute. reflexivity.
  - unfold complexity_levels. simpl. apply list_elem_of_here.
Defined.

(** X3. A rerun in which "Analyze Code" was not clicked sends no GET and no
    model request: everything it does is to show texts on the page. *)
Theorem no_click_no_request (refuses : LlmClient → option string)
    (environ : gmap string string) (kept : Persisted)
    (r1 r2 : string) (i : Inputs) (W : World) :
  analyze_clicked i = false →
  ∃ o t,
    run (main refuses environ kept r1 r2 i) W
    = (o, {| gets := 0; invokes := 0 |}, t)
    ∧ gets_of t = []
    ∧ invokes_of t = []
    ∧ Forall (λ e, ∃ w, e = Ui Page w) t.
Proof.
  intros Hclick. unfold run, main, within, bind, lift, st.
  destruct (init refuses environ kept) as [ss|e]; simpl.
  2:{ eexists _, _. split; [reflexivity|]. repeat split.
      repeat constructor. by eexists. }
  unfold prompt_engineering_tab, bind, lift, st.
  destruct (list_index _ _) as [n|e]; simpl.
  2:{ eexists _, _. split; [reflexivity|]. repeat split.
      repeat (constructor; [by eexists|]). constructor. }
  destruct (selected_prompt _) as [text|e]; simpl.
  2:{ eexists _, _. split; [reflexivity|]. repeat split.
      repeat (constructor; [by eexists|]). constructor. }
  unfold code_analysis_tab. rewrite Hclick. simpl.
  eexists _, _. split; [reflexivity|]. repeat split.
  repeat (constructor; [by eexists|]). constructor.
Qed.

Lemma no_click_no_request_witness :
  ∃ o t,
    run (main refuses_empty_key sample_environ first_run "Documentation" "basic"
           {| search_query := "cnn";
              file_extension := ".py";
              min_repo_size := 10;
              directory_path := "";
              min_followers := 0;
              language_filter := "";
              use_date_filter := false;
              date_input := Date 2020 1 1;
              analysis_mode := "Documentation Generator";
              prompt_level := "basic";
              analyze_clicked := false |}) sample_world
    = (o, {| gets := 0; invokes := 0 |}, t)
    ∧ gets_of t = []
    ∧ invokes_of t = []
    ∧ Forall (λ e, ∃ w, e = Ui Page w) t.
Proof.
  apply no_click_no_request. reflexivity.
Defined.

(** X16. With an empty search query a whole rerun with a click on "Analyze
    Code" sends no request and writes no enhanced query: after a successful
    start-up its last event is the warning. *)
Theorem empty_query_rerun (refuses : LlmClient → option string)
    (environ : gmap string string) (kept : Persisted)
    (r1 r2 : string) (i : Inputs) (W : World) :
  search_query i = "" →
  analyze_clicked i = true →
  ∃ o t,
    run (main refuses environ kept r1 r2 i) W
    = (o, {| gets := 0; invokes := 0 |}, t)
    ∧ gets_of t = []
    ∧ invokes_of t = []
    ∧ (∀ place query, Ui place (st_write ("Enhanced Query: " +:+ query)) ∉ t)
    ∧ (o = Ret tt →
       last t = Some (Ui Page (st_warning "Please enter a search query"))).
Proof.
  intros Hq Hclick. unfold run, main, within, bind, lift, st.
  assert (Hnot : ∀ place query (u : list Event),
            Forall (λ e, ∀ place query,
                      e ≠ Ui place (st_write ("Enhanced Query: " +:+ query))) u →
            Ui place (st_write ("Enhanced Query: " +:+ query)) ∉ u).
  { intros place query u Hall Hin. rewrite Forall_forall in Hall.
    by apply (Hall _ Hin place query). }
  destruct (init refuses environ kept) as [ss|e]; simpl.
  2:{ eexists _, _. split; [reflexivity|]. repeat split; [|done].
      intros place query. apply Hnot. repeat constructor. done. }
  unfold prompt_engineering_tab, bind, lift, st.
  destruct (list_index _ _) as [n|e]; simpl.
  2:{ eexists _, _. split; [reflexivity|]. repeat split; [|done].
      intros place query. apply Hnot. repeat (constructor; [done|]). constructor. }
  destruct (selected_prompt _) as [text|e]; simpl.
  2:{ eexists _, _. split; [reflexivity|]. repeat split; [|done].
      intros place query. apply Hnot. repeat (constructor; [done|]). constructor. }
  unfold code_analysis_tab, on_analyze. rewrite Hclick, Hq. simpl.
  eexists _, _. split; [reflexivity|]. repeat split.
  intros place query. apply Hnot. repeat (constructor; [done|]). constructor.
Qed.

Lemma empty_query_rerun_witness :
  ∃ o t,
    run (main refuses_empty_key sample_environ first_run "Documentation" "basic"
           (bare_inputs "")) sample_world
    = (o, {| gets := 0; invokes := 0 |}, t)
    ∧ gets_of t = []
    ∧ invokes_of t = []
    ∧ (∀ place query, Ui place (st_write ("Enhanced Query: " +:+ query)) ∉ t)
    ∧ (o = Ret tt →
       last t = Some (Ui Page (st_warning "Please enter a search query"))).
Proof.
  apply empty_query_rerun; reflexivity.
Defined.

(** ** The click when the search gives nothing to show *)

Lemma search_github_code_error (ss : Session) (query : string) (W : World)
    (p : Place) (c : Clock) (msg : string) :
  search_error (http W (gets c) (search_request ss query)) = Some msg →
  search_github_code ss query W p c
  = (Ret None, {| gets := S (gets c); invokes := invokes c |},
     [ HttpGet (search_request ss query);
       Ui p (st_error ("GitHub API Error: " +:+ msg)) ]).
Proof.
  unfold search_error, search_github_code, try_except.
  unfold bind at 1. unfold requests_get at 1.
  destruct (http W (gets c) (search_request ss query)) as [r|m]; simpl.
  - unfold bind at 1. unfold raise_for_status.
    case_decide as H4.
    { intros [= <-].
      replace ((400 <=? status_code r)%Z && (status_code r <? 500)%Z) with true
        by (symmetry; apply andb_true_intro; split;
            [apply Z.leb_le|apply Z.ltb_lt]; lia).
      reflexivity. }
    replace ((400 <=? status_code r)%Z && (status_code r <? 500)%Z) with false.
    2:{ symmetry. apply andb_false_iff.
        destruct (decide (400 ≤ status_code r)%Z);
          [right; apply Z.ltb_ge|left; apply Z.leb_gt]; lia. }
    case_decide as H5.
    { intros [= <-].
      replace ((500 <=? status_code r)%Z && (status_code r <? 600)%Z) with true
        by (symmetry; apply andb_true_intro; split;
            [apply Z.leb_le|apply Z.ltb_lt]; lia).
      reflexivity. }
    replace ((500 <=? status_code r)%Z && (status_code r <? 600)%Z) with false.
    2:{ symmetry. apply andb_false_iff.
        destruct (decide (500 ≤ status_code r)%Z);
          [right; apply Z.ltb_ge|left; apply Z.leb_gt]; lia. }
    unfold bind, response_json.
    destruct (json r) as [m|body]; [|discriminate].
    by intros [= <-].
  - by intros [= <-].
Qed.

(** X4. When the search fails (the transport raised, the status is in
    400..599, or the body is not JSON), a click with a non-empty query shows
    the enhanced query, "GitHub API Error: <message>" (for a 4xx/5xx status
    the message is "<status> Client|Server Error: <reason> for url: <url>")
    and "No results found or error in search", then returns normally: the one
    search GET is the only request, no fetch and no model call follow. *)
Theorem failed_search_shows_errors (ss : Session) (i : Inputs) (W : World)
    (p : Place) (c : Clock) (prompt msg : string) :
  search_query i ≠ "" →
  select_prompt ss (analysis_mode i) (prompt_level i) = Ret prompt →
  search_error (http W (gets c) (search_request ss (enhanced_query i))) = Some msg →
  on_analyze ss i W p c
  = (Ret tt, {| gets := S (gets c); invokes := invokes c |},
     [ Ui p (st_write ("Enhanced Query: " +:+ enhanced_query i));
       HttpGet (search_request ss (enhanced_query i));
       Ui p (st_error ("GitHub API Error: " +:+ msg));
       Ui p (st_error "No results found or error in search") ]).
Proof.
  intros Hq Hprompt Herror.
  rewrite (on_analyze_nonempty ss i W p c prompt Hq Hprompt).
  by rewrite (search_github_code_error ss _ W p c msg Herror).
Qed.

Lemma failed_search_shows_errors_witness :
  on_analyze sample_session (bare_inputs "cnn")
    {| http := λ _ _, Responded (sample_response 404 "" (inl "Expecting value"));
       model := λ _ _ _, Content "unused" |}
    Page {| gets := 0; invokes := 0 |}
  = (Ret tt, {| gets := 1; invokes := 0 |},
     [ Ui Page (st_write ("Enhanced Query: " +:+ enhanced_query (bare_inputs "cnn")));
       HttpGet (search_request sample_session (enhanced_query (bare_inputs "cnn")));
       Ui Page (st_error ("GitHub API Error: " +:+
                          "404 Client Error: reason for url: https://example.org/"));
       Ui Page (st_error "No results found or error in search") ]).
Proof.
  apply (failed_search_shows_errors sample_session (bare_inputs "cnn") _ Page
           {| gets := 0; invokes := 0 |} documentation_basic).
  - vm_compute. congruence.
  - vm_compute. reflexivity.
  - vm_compute. reflexivity.
Defined.

(** X5. A search response that parses but has no "items" key is shown as "No
    results found or error in search"; nothing is fetched or analysed and the
    click returns normally. *)
Theorem response_without_items (ss : Session) (i : Inputs) (W : World)
    (p : Place) (c : Clock) (prompt : string) (r : Response) (count : option Z) :
  search_query i ≠ "" →
  select_prompt ss (analysis_mode i) (prompt_level i) = Ret prompt →
  http W (gets c) (search_request ss (enhanced_query i)) = Responded r →
  ¬ error_status (status_code r) →
  json r = inr {| total_count := count; items := None |} →
  on_analyze ss i W p c
  = (Ret tt, {| gets := S (gets c); invokes := invokes c |},
     [ Ui p (st_write ("Enhanced Query: " +:+ enhanced_query i));
       HttpGet (search_request ss (enhanced_query i));
       Ui p (st_error "No results found or error in search") ]).
Proof.
  intros Hq Hprompt Hhttp Hstatus Hjson.
  rewrite (on_analyze_nonempty ss i W p c prompt Hq Hprompt).
  by rewrite (search_github_code_ok ss _ W p c r _ Hhttp Hstatus Hjson).
Qed.

Lemma response_without_items_witness :
  on_analyze sample_session (bare_inputs "cnn")
    {| http := λ _ _, Responded (sample_response 200 ""
                        (inr {| total_count := Some 0%Z; items := None |}));
       model := λ _ _ _, Content "unused" |}
    Page {| gets := 0; invokes := 0 |}
  = (Ret tt, {| gets := 1; invokes := 0 |},
     [ Ui Page (st_write ("Enhanced Query: " +:+ enhanced_query (bare_inputs "cnn")));
       HttpGet (search_request sample_session (enhanced_query (bare_inputs "cnn")));
       Ui Page (st_error "No results found or error in search") ]).
Proof.
  apply (response_without_items sample_session (bare_inputs "cnn") _ Page
           {| gets := 0; invokes := 0 |} documentation_basic
           (sample_response 200 "" (inr {| total_count := Some 0%Z; items := None |}))
           (Some 0%Z)).
  - vm_compute. congruence.
  - vm_compute. reflexivity.
  - reflexivity.
  - unfold error_status. simpl. lia.
  - reflexivity.
Defined.

(** X6. A search response that has "items" but no "total_count" makes the
    click end with [KeyError('total_count')], which nothing catches: the
    enhanced query and the search GET are the only events, no hit is fetched
    even when the list of hits is not empty. *)
Theorem response_without_total_count (ss : Session) (i : Inputs) (W : World)
    (p : Place) (c : Clock) (prompt : string) (r : Response) (its : list Item) :
  search_query i ≠ "" →
  select_prompt ss (analysis_mode i) (prompt_level i) = Ret prompt →
  http W (gets c) (search_request ss (enhanced_query i)) = Responded r →
  ¬ error_status (status_code r) →
  json r = inr {| total_count := None; items := Some its |} →
  on_analyze ss i W p c
  = (Raise (KeyError "total_count"),
     {| gets := S (gets c); invokes := invokes c |},
     [ Ui p (st_write ("Enhanced Query: " +:+ enhanced_query i));
       HttpGet (search_request ss (enhanced_query i)) ]).
Proof.
  intros Hq Hprompt Hhttp Hstatus Hjson.
  rewrite (on_analyze_nonempty ss i W p c prompt Hq Hprompt).
  by rewrite (search_github_code_ok ss _ W p c r _ Hhttp Hstatus Hjson).
Qed.

Lemma response_without_total_count_witness :
  on_analyze sample_session (bare_inputs "cnn")
    {| http := λ _ _, Responded (sample_response 200 ""
                        (inr {| total_count := None;
                                items := Some [sample_item "a.py"] |}));
       model := λ _ _ _, Content "unused" |}
    Page {| gets := 0; invokes := 0 |}
  = (Raise (KeyError "total_count"), {| gets := 1; invokes := 0 |},
     [ Ui Page (st_write ("Enhanced Query: " +:+ enhanced_query (bare_inputs "cnn")));
       HttpGet (search_request sample_session (enhanced_query (bare_inputs "cnn"))) ]).
Proof.
  apply (response_without_total_count sample_session (bare_inputs "cnn") _ Page
           {| gets := 0; invokes := 0 |} documentation_basic
           (sample_response 200 ""
              (inr {| total_count := None; items := Some [sample_item "a.py"] |}))
           [sample_item "a.py"]).
  - vm_compute. congruence.
  - vm_compute. reflexivity.
  - reflexivity.
  - unfold error_status. simpl. lia.
  - reflexivity.
Defined.

(** ** What one click can send *)

Section Requests.
Variables (ss : Session) (W : World).

(** The requests of the search client are its one GET. *)
Lemma search_github_code_network (query : string) (p : Place) (c : Clock) :
  ∃ found shown,
    search_github_code ss query W p c
    = (Ret found, {| gets := S (gets c); invokes := invokes c |},
       HttpGet (search_request ss query) :: shown)
    ∧ network shown = [].
Proof.
  destruct (search_error (http W (gets c) (search_request ss query)))
    as [msg|] eqn:Herror.
  - rewrite (search_github_code_error ss query W p c msg Herror). by eexists _, _.
  - unfold search_error in Herror.
    destruct (http W (gets c) (search_request ss query)) as [r|m] eqn:Hhttp;
      [|discriminate].
    repeat case_decide; try discriminate.
    destruct (json r) as [m|body] eqn:Hjson; [discriminate|].
    rewrite (search_github_code_ok ss query W p c r body Hhttp) by
      (done || unfold error_status; lia).
    by eexists _, _.
Qed.

(** The requests of what is shown for a search result follow at most the
    first three hits. *)
Lemma show_results_network (prompt : string) (found : option SearchResults)
    (p : Place) (c : Clock) :
  ∃ its,
    fetch_then_analyze (llm ss) prompt (take 3 its)
      (network (show_results ss prompt found W p c).2).
Proof.
  destruct found as [[count [its|]]|]; try (exists []; apply fta_stop).
  destruct count as [n|]; [|exists []; apply fta_stop].
  exists its. rewrite show_results_found.
  destruct (for_each (take 3 its) (process_item ss prompt) W p c)
    as [[o c'] t] eqn:Hloop.
  by destruct (for_each_fetch_then_analyze ss prompt W _ p c _ _ _ Hloop)
    as [Hfta _].
Qed.

(** The requests of one click: none, or the search GET followed by the
    requests of at most three hits. *)
Lemma on_analyze_network (i : Inputs) (p : Place) (c : Clock) :
  network (on_analyze ss i W p c).2 = []
  ∨ ∃ prompt its rest,
      select_prompt ss (analysis_mode i) (prompt_level i) = Ret prompt
      ∧ network (on_analyze ss i W p c).2
        = HttpGet (search_request ss (enhanced_query i)) :: rest
      ∧ fetch_then_analyze (llm ss) prompt (take 3 its) rest.
Proof.
  destruct (decide (search_query i = "")) as [Hq|Hq].
  { left. unfold on_analyze. by rewrite Hq. }
  destruct (select_prompt ss (analysis_mode i) (prompt_level i))
    as [prompt|e] eqn:Hprompt.
  2:{ left. unfold on_analyze. apply truthy_true in Hq. rewrite Hq. simpl.
      unfold bind, lift, st. by rewrite Hprompt. }
  right. rewrite (on_analyze_nonempty ss i W p c prompt Hq Hprompt).
  destruct (search_github_code_network (enhanced_query i) p c)
    as (found & shown & -> & Hshown).
  destruct (show_results_network prompt found p
              {| gets := S (gets c); invokes := invokes c |}) as [its Hfta].
  destruct (show_results ss prompt found W p _) as [[o2 c2] t2]. simpl in *.
  exists prompt, its, (network t2). split; [done|]. split; [|done].
  unfold network in *. rewrite List.filter_app, Hshown. done.
Qed.

End Requests.

Lemma fetch_then_analyze_counts (client : LlmClient) (prompt : string)
    (l : list Item) (t : list Event) :
  fetch_then_analyze client prompt l t →
  length (gets_of t) ≤ length l
  ∧ length (invokes_of t) ≤ length (gets_of t).
Proof. induction 1; simpl; lia. Qed.

Lemma fetch_then_analyze_events (client : LlmClient) (prompt : string)
    (l : list Item) (t : list Event) :
  fetch_then_analyze client prompt l t →
  Forall (λ e, (∃ it, it ∈ l ∧ e = HttpGet (raw_request it))
               ∨ ∃ body, e = LlmInvoke client (instruction prompt (code_snippet_of body)))
    t.
Proof.
  induction 1 as [|it its t _ IH|it its body t _ IH].
  - constructor.
  - constructor; [left; exists it; split; [apply list_elem_of_here|done]|].
    eapply Forall_impl; [exact IH|]. intros e [(it' & Hin & ->)|Hllm]; [|by right].
    left. exists it'. split; [by apply list_elem_of_further|done].
  - constructor; [left; exists it; split; [apply list_elem_of_here|done]|].
    constructor; [right; by exists body|].
    eapply Forall_impl; [exact IH|]. intros e [(it' & Hin & ->)|Hllm]; [|by right].
    left. exists it'. split; [by apply list_elem_of_further|done].
Qed.

Lemma gets_of_network (t : list Event) : gets_of (network t) = gets_of t.
Proof.
  induction t as [|[place w|req|cl ins] t IH]; simpl; [done|done|..];
    by rewrite IH.
Qed.

Lemma invokes_of_network (t : list Event) : invokes_of (network t) = invokes_of t.
Proof.
  induction t as [|[place w|req|cl ins] t IH]; simpl; [done|done|..];
    by rewrite IH.
Qed.

Lemma elem_of_network (e : Event) (t : list Event) :
  e ∈ t → is_request e = true → e ∈ network t.
Proof.
  intros Hin Hreq. apply list_elem_of_In. apply List.filter_In.
  split; [by apply list_elem_of_In|done].
Qed.

(** X7. Whatever the inputs, the session and the answers of the world, one
    click sends at most four GETs (the search and three fetches) and at most
    three model requests, and never more model requests than fetches. *)
Theorem click_request_budget (ss : Session) (i : Inputs) (W : World)
    (p : Place) (c : Clock) :
  length (gets_of (code_analysis_tab ss i W p c).2) ≤ 4
  ∧ length (invokes_of (code_analysis_tab ss i W p c).2) ≤ 3
  ∧ length (invokes_of (code_analysis_tab ss i W p c).2)
    ≤ length (gets_of (code_analysis_tab ss i W p c).2) - 1.
Proof.
  unfold code_analysis_tab. destruct (analyze_clicked i); [|simpl; lia].
  rewrite <- gets_of_network, <- invokes_of_network.
  destruct (on_analyze_network ss W i p c)
    as [->|(prompt & its & rest & _ & -> & Hfta)]; [simpl; lia|].
  apply fetch_then_analyze_counts in Hfta as [Hgets Hinvokes].
  rewrite length_take in Hgets. simpl. lia.
Qed.

(** X8. The headers of the session, among them the GitHub bearer token, and
    the query go to the search URL only: every other GET of a click is the
    fetch of the raw URL of one of the first three hits of the search
    response, sent with no header and no parameter. *)
Theorem token_only_sent_to_search (ss : Session) (i : Inputs) (W : World)
    (p : Place) (c : Clock) (req : Request) :
  HttpGet req ∈ (code_analysis_tab ss i W p c).2 →
  req = search_request ss (enhanced_query i)
  ∨ ∃ r count its it,
      http W (gets c) (search_request ss (enhanced_query i)) = Responded r
      ∧ json r = inr {| total_count := count; items := Some its |}
      ∧ it ∈ take 3 its
      ∧ req = {| url := raw_url it; params := ∅; headers := ∅ |}.
Proof.
  unfold code_analysis_tab. destruct (analyze_clicked i).
  2:{ intros Hin. by apply elem_of_nil in Hin. }
  destruct (decide (search_query i = "")) as [Hq|Hq].
  { unfold on_analyze. rewrite Hq. simpl. intros Hin.
    apply list_elem_of_singleton in Hin. discriminate Hin. }
  destruct (select_prompt ss (analysis_mode i) (prompt_level i))
    as [prompt|e] eqn:Hprompt.
  2:{ unfold on_analyze. apply truthy_true in Hq. rewrite Hq. simpl.
      unfold bind, lift, st. rewrite Hprompt. simpl. intros Hin.
      apply list_elem_of_singleton in Hin. discriminate Hin. }
  rewrite (on_analyze_nonempty ss i W p c prompt Hq Hprompt).
  destruct (search_error (http W (gets c) (search_request ss (enhanced_query i))))
    as [msg|] eqn:Herror.
  { rewrite (search_github_code_error ss _ W p c msg Herror). simpl. intros Hin.
    repeat (apply elem_of_cons in Hin as [Hin|Hin];
            [first [discriminate Hin | injection Hin as ->; by left]|]).
    by apply elem_of_nil in Hin. }
  unfold search_error in Herror.
  destruct (http W (gets c) (search_request ss (enhanced_query i)))
    as [r|m] eqn:Hhttp; [|discriminate].
  repeat case_decide; try discriminate.
  destruct (json r) as [m|[count hits]] eqn:Hjson; [discriminate|].
  rewrite (search_github_code_ok ss _ W p c r _ Hhttp) by
    (done || unfold error_status; lia).
  destruct hits as [its|].
  2:{ simpl. intros Hin.
      repeat (apply elem_of_cons in Hin as [Hin|Hin];
              [first [discriminate Hin | injection Hin as ->; by left]|]).
      by apply elem_of_nil in Hin. }
  destruct count as [n|].
  2:{ simpl. intros Hin.
      repeat (apply elem_of_cons in Hin as [Hin|Hin];
              [first [discriminate Hin | injection Hin as ->; by left]|]).
      by apply elem_of_nil in Hin. }
  rewrite show_results_found.
  destruct (for_each (take 3 its) (process_item ss prompt) W p _)
    as [[o c'] t] eqn:Hloop. simpl. intros Hin.
  do 3 (apply elem_of_cons in Hin as [Hin|Hin];
        [first [discriminate Hin | injection Hin as ->; by left]|]).
  right. exists r, (Some n), its.
  destruct (for_each_fetch_then_analyze ss prompt W _ p _ _ _ _ Hloop)
    as [Hfta _].
  apply fetch_then_analyze_events in Hfta. rewrite Forall_forall in Hfta.
  apply elem_of_network in Hin; [|done].
  destruct (Hfta _ Hin) as [(it & Hit & [= ->])|[body Hbody]]; [|discriminate].
  by exists it.
Qed.

Lemma token_only_sent_to_search_witness :
  raw_request (sample_item "b.py") = search_request sample_session
                                       (enhanced_query (bare_inputs "cnn"))
  ∨ ∃ r count its it,
      http sample_world 0
        (search_request sample_session (enhanced_query (bare_inputs "cnn")))
      = Responded r
      ∧ json r = inr {| total_count := count; items := Some its |}
      ∧ it ∈ take 3 its
      ∧ raw_request (sample_item "b.py")
        = {| url := raw_url it; params := ∅; headers := ∅ |}.
Proof.
  apply (token_only_sent_to_search sample_session (bare_inputs "cnn") sample_world
           Page {| gets := 0; invokes := 0 |}).
  vm_compute. do 8 apply list_elem_of_further. apply list_elem_of_here.
Defined.

(** X9. Every model request of a click goes to the client of the session and
    carries the prompt selected for the click, two newlines and a snippet of
    at most 2500 characters: no more than that of a fetched file ever reaches
    the model. *)
Theorem model_sees_bounded_snippets (ss : Session) (i : Inputs) (W : World)
    (p : Place) (c : Clock) (client : LlmClient) (text : string) :
  LlmInvoke client text ∈ (code_analysis_tab ss i W p c).2 →
  client = llm ss
  ∧ ∃ prompt snippet,
      select_prompt ss (analysis_mode i) (prompt_level i) = Ret prompt
      ∧ text = prompt +:+ PyStr.nl +:+ PyStr.nl +:+ snippet
      ∧ String.length snippet ≤ 2500.
Proof.
  unfold code_analysis_tab. destruct (analyze_clicked i).
  2:{ intros Hin. by apply elem_of_nil in Hin. }
  intros Hin. apply elem_of_network in Hin; [|done].
  destruct (on_analyze_network ss W i p c)
    as [Hnone|(prompt & its & rest & Hprompt & Hnet & Hfta)].
  { rewrite Hnone in Hin. by apply elem_of_nil in Hin. }
  rewrite Hnet in Hin. apply elem_of_cons in Hin as [Hin|Hin]; [discriminate|].
  apply fetch_then_analyze_events in Hfta.
  rewrite Forall_forall in Hfta.
  destruct (Hfta _ Hin) as [(it & _ & Hget)|[body [= -> ->]]]; [discriminate|].
  split; [done|]. exists prompt, (code_snippet_of body).
  split; [done|]. split; [done|].
  unfold code_snippet_of. rewrite slice_to_length. apply Nat.le_min_l.
Qed.

Lemma model_sees_bounded_snippets_witness :
  llm sample_session = llm sample_session
  ∧ ∃ prompt snippet,
      select_prompt sample_session "Documentation Generator" "basic" = Ret prompt
      ∧ instruction documentation_basic "print(1)"
        = prompt +:+ PyStr.nl +:+ PyStr.nl +:+ snippet
      ∧ String.length snippet ≤ 2500.
Proof.
  apply (model_sees_bounded_snippets sample_session (bare_inputs "cnn")
           sample_world Page {| gets := 0; invokes := 0 |}).
  vm_compute. do 6 apply list_elem_of_further. apply list_elem_of_here.
Defined.

(** ** An exception in the batch *)

Section Abort.
Variables (ss : Session) (prompt : string) (W : World).

Lemma for_each_raise (l : list Item) (p : Place) (c c' : Clock) (e : Exn)
    (t : list Event) :
  for_each l (process_item ss prompt) W p c = (Raise e, c', t) →
  ∃ k it msg,
    l !! k = Some it
    ∧ http W (gets c + k) (raw_request it) = TransportError msg
    ∧ e = RequestException msg
    ∧ gets c' = gets c + S k
    ∧ last t = Some (HttpGet (raw_request it))
    ∧ ∀ j it', j < k → l !! j = Some it' →
        ∃ r, http W (gets c + j) (raw_request it') = Responded r.
Proof.
  revert c t. induction l as [|it l IH]; intros c t Hrun; [discriminate|].
  simpl in Hrun. unfold bind in Hrun. rewrite process_item_run in Hrun.
  destruct (http W (gets c) (raw_request it)) as [r|msg] eqn:Hhttp.
  - set (a := model W (invokes c) (llm ss)
                (instruction prompt (code_snippet_of (text r)))) in *.
    assert (Hstep : ∀ c1, gets c1 = S (gets c) →
              (let '(o, c2, t2) := for_each l (process_item ss prompt) W p c1 in
               (o, c2, panel ss prompt it r a ++ t2)) = (Raise e, c', t) →
              ∃ k it0 msg,
                (it :: l) !! k = Some it0
                ∧ http W (gets c + k) (raw_request it0) = TransportError msg
                ∧ e = RequestException msg
                ∧ gets c' = gets c + S k
                ∧ last t = Some (HttpGet (raw_request it0))
                ∧ ∀ j it', j < k → (it :: l) !! j = Some it' →
                    ∃ r', http W (gets c + j) (raw_request it') = Responded r').
    { intros c1 Hc1 Hrest.
      destruct (for_each l (process_item ss prompt) W p c1)
        as [[o2 c2] t2] eqn:Hloop.
      inversion Hrest; subst.
      destruct (IH _ _ Hloop) as (k & it0 & msg & Hk & Hfail & -> & Hgets & Hlast & Hbefore).
      exists (S k), it0, msg. rewrite Hc1 in *.
      replace (gets c + S k) with (S (gets c) + k) by lia.
      split; [done|]. split; [done|]. split; [done|]. split; [lia|]. split.
      - rewrite last_app, Hlast. done.
      - intros [|j] it' Hj Hit'; simpl in Hit'.
        + inversion Hit'; subst. rewrite Nat.add_0_r. by exists r.
        + replace (gets c + S j) with (S (gets c) + j) by lia.
          apply (Hbefore j it'); [lia|done]. }
    case_decide; eapply Hstep; try exact Hrun; done.
  - inversion Hrun; subst. exists 0, it, msg. rewrite Nat.add_0_r.
    repeat split; try done; [simpl; lia|]. intros j it' Hj. lia.
Qed.

End Abort.

(** X10. The loop over the hits can only be left by an exception of the
    content fetch itself: if showing a search result raises, then some hit
    among the first three was answered by a transport error, every hit before
    it was answered with a status, the failing GET is the last event, the
    exception is that [RequestException], and no later hit is fetched.  A
    failure of the model never leaves the loop. *)
Theorem only_a_fetch_exception_leaves_the_loop (ss : Session) (prompt : string)
    (W : World) (p : Place) (c c' : Clock) (n : Z) (its : list Item) (e : Exn)
    (t : list Event) :
  show_results ss prompt (Some {| total_count := Some n; items := Some its |}) W p c
  = (Raise e, c', t) →
  ∃ k it msg,
    take 3 its !! k = Some it
    ∧ http W (gets c + k) (raw_request it) = TransportError msg
    ∧ e = RequestException msg
    ∧ gets c' = gets c + S k
    ∧ last t = Some (HttpGet (raw_request it))
    ∧ ∀ j it', j < k → take 3 its !! j = Some it' →
        ∃ r, http W (gets c + j) (raw_request it') = Responded r.
Proof.
  rewrite show_results_found.
  destruct (for_each (take 3 its) (process_item ss prompt) W p c)
    as [[o c1] t1] eqn:Hloop.
  intros [= -> -> <-].
  destruct (for_each_raise ss prompt W _ p c c' e t1 Hloop)
    as (k & it & msg & Hk & Hfail & He & Hgets & Hlast & Hbefore).
  exists k, it, msg. repeat split; try done.
  destruct t1; [discriminate Hlast|done].
Qed.

Lemma only_a_fetch_exception_leaves_the_loop_witness :
  ∃ k it msg,
    take 3 [ sample_item "a.py"; sample_item "b.py"; sample_item "c.py";
             sample_item "d.py"; sample_item "e.py" ] !! k = Some it
    ∧ http dropping_world (1 + k) (raw_request it) = TransportError msg
    ∧ RequestException "connection reset" = RequestException msg
    ∧ 3 = 1 + S k.
Proof.
  destruct (only_a_fetch_exception_leaves_the_loop sample_session documentation_basic
              dropping_world Page {| gets := 1; invokes := 0 |}
              {| gets := 3; invokes := 1 |} 5
              [ sample_item "a.py"; sample_item "b.py"; sample_item "c.py";
                sample_item "d.py"; sample_item "e.py" ]
              (RequestException "connection reset")
              [ Ui Page (st_success "Found 5 results");
                HttpGet (raw_request (sample_item "a.py"));
                Ui (GithubTab "File: a.py (Repo: octo/repo)")
                  (st_subheader "File: a.py (Repo: octo/repo)");
                Ui (GithubTab "File: a.py (Repo: octo/repo)")
                  (st_code "print(1)" "python");
                LlmInvoke (llm sample_session)
                  (instruction documentation_basic "print(1)");
                Ui (AnalysisTab "File: a.py (Repo: octo/repo)")
                  (st_write "Prints one.");
                HttpGet (raw_request (sample_item "b.py")) ])
    as (k & it & msg & Hk & Hfail & He & Hgets & _).
  - vm_compute. reflexivity.
  - exists k, it, msg. repeat split; assumption.
Defined.

(** ** More on the raw-content URL *)

Lemma occursb_complete (old s : string) : occurs old s → occursb old s = true.
Proof.
  intros (a & b & ->). induction a as [|ch a IH].
  - change ("" +:+ old +:+ b) with (old +:+ b).
    destruct (old +:+ b) eqn:Hs; simpl; rewrite <- Hs, startswith_app; done.
  - change (String ch a +:+ old +:+ b) with (String ch (a +:+ old +:+ b)).
    cbn [occursb]. rewrite IH. apply orb_true_r.
Qed.

Lemma only_at_endb_sound (old s : string) :
  only_at_endb old s = true → occurs_only_at_end old s.
Proof.
  intros Hcheck a. revert s Hcheck.
  induction a as [|ch a IH]; intros s Hcheck b ->.
  - change ("" +:+ old +:+ b) with (old +:+ b) in Hcheck.
    destruct (old +:+ b) as [|ch s] eqn:Hs.
    + destruct old; [|discriminate]. exact Hs.
    + cbn [only_at_endb] in Hcheck. apply andb_true_iff in Hcheck as [Hhere _].
      rewrite <- Hs, startswith_app in Hhere. simpl in Hhere.
      apply Nat.eqb_eq in Hhere. rewrite str_length_app in Hhere.
      destruct b; [done|]. simpl in Hhere. lia.
  - change (String ch a +:+ old +:+ b) with (String ch (a +:+ old +:+ b)) in Hcheck.
    cbn [only_at_endb] in Hcheck. apply andb_true_iff in Hcheck as [_ Hrest].
    by apply (IH _ Hrest b).
Qed.

Lemma raw_url_of_blob_url_witness :
  raw_url (sample_item "src/a.py")
  = "https://raw.githubusercontent.com/" +:+ "octo/repo" +:+ "/" +:+ "main/src/a.py".
Proof.
  apply (raw_url_of_blob_url (sample_item "src/a.py") "octo/repo" "main/src/a.py").
  - reflexivity.
  - intros H. apply occursb_complete in H. vm_compute in H. discriminate H.
  - apply only_at_endb_sound. vm_compute. reflexivity.
  - intros H. apply occursb_complete in H. vm_compute in H. discriminate H.
Defined.

(** X12. A URL that contains neither [https://github.com] nor [/blob] (the
    link of another host, say) is fetched as it is. *)
Theorem raw_url_unchanged (it : Item) :
  ¬ occurs "https://github.com" (html_url it) →
  ¬ occurs "/blob" (html_url it) →
  raw_url it = html_url it.
Proof.
  intros Hhost Hsegment. unfold raw_url, PyStr.replace.
  rewrite (replace_from_absent _ _ (html_url it)) by done.
  by rewrite replace_from_absent.
Qed.

Lemma raw_url_unchanged_witness :
  raw_url {| name := "a.py"; full_name := "octo/repo";
             html_url := "https://git.example.org/octo/repo/a.py" |}
  = "https://git.example.org/octo/repo/a.py".
Proof.
  apply (raw_url_unchanged {| name := "a.py"; full_name := "octo/repo";
                              html_url := "https://git.example.org/octo/repo/a.py" |}).
  - intros H. apply occursb_complete in H. vm_compute in H. discriminate H.
  - intros H. apply occursb_complete in H. vm_compute in H. discriminate H.
Defined.

(** ** More on the filter builder and the catalog *)

(** X14. The analysis mode is only compared with "Documentation Generator":
    with any other mode text, the label "Documentation" of the other tab
    included, the lookup of the "Code Analysis" tab takes the AI-detection
    presets. *)
Theorem other_mode_is_ai_detection (refuses : LlmClient → option string)
    (environ : gmap string string) (kept : Persisted) (ss : Session) (mode : string) (c : Complexity) :
  init refuses environ kept = Ret ss →
  mode ≠ "Documentation Generator" →
  select_prompt ss mode (level_key c) = Ret (preset AIDetection c).
Proof.
  intros Hinit Hmode.
  destruct (init_session _ _ _ _ Hinit) as (_ & _ & _ & _ & _ & _ & Hai).
  unfold select_prompt. apply String.eqb_neq in Hmode. rewrite Hmode.
  unfold getitem, dict_get, obind. rewrite Hai.
  destruct c; reflexivity.
Qed.

Lemma other_mode_is_ai_detection_witness :
  select_prompt sample_session "Documentation" "basic" = Ret ai_detection_basic.
Proof.
  apply (other_mode_is_ai_detection refuses_empty_key sample_environ first_run sample_session
           "Documentation" basic).
  - vm_compute. reflexivity.
  - discriminate.
Defined.
